(** * Davidia plot client: the plot component and the selection component

    A shallow embedding of [PlotComponent] (the streaming line plot: message
    dispatch, series collection, axis domains, add-line requests) and of the
    stateful core of [SelectionComponent] (axis inversion flags, gesture
    validation, per-kind counters), with the properties of the design
    document stated and settled against it. *)

From Stdlib Require Import QArith.
From stdpp Require Import base strings gmap list list_numbers pretty.

Open Scope Z_scope.
Set Warnings "-register-all".

(* ===================================================================== *)
(** ** JavaScript numbers *)
(* ===================================================================== *)

(** A JavaScript [number] is an IEEE double: NaN, one of the two infinities,
    or a finite value.  Every finite double is a rational, and the only
    operations the components apply to numbers ([Math.min], [Math.max],
    [<], [>=], and the sign of a difference) do not depend on rounding, so
    finite values are rationals here.  The two zeros are not told apart. *)
Inductive number : Type :=
  | NaN
  | NegInfinity
  | Finite (q : Q)
  | Infinity.

(** [a <= b] on numbers: false as soon as one side is NaN. *)
Definition num_leb (a b : number) : bool :=
  match a, b with
  | NaN, _ | _, NaN => false
  | NegInfinity, _ => true
  | _, Infinity => true
  | Finite p, Finite q => Qle_bool p q
  | _, _ => false
  end.

(** [a < b] on numbers. *)
Definition num_ltb (a b : number) : bool :=
  match a, b with
  | NaN, _ | _, NaN => false
  | _, _ => negb (num_leb b a)
  end.

Definition num_le (a b : number) : Prop := num_leb a b = true.

(** [a - b]: NaN is contagious, the difference of equal infinities is NaN. *)
Definition num_sub (a b : number) : number :=
  match a, b with
  | NaN, _ | _, NaN => NaN
  | Infinity, Infinity | NegInfinity, NegInfinity => NaN
  | Infinity, _ | _, NegInfinity => Infinity
  | NegInfinity, _ | _, Infinity => NegInfinity
  | Finite p, Finite q => Finite (p - q)
  end.

Definition num_of_Z (z : Z) : number := Finite (inject_Z z).

(** One step of [Math.min]: NaN wins, otherwise the smaller argument. *)
Definition min2 (acc v : number) : number :=
  match acc, v with
  | NaN, _ | _, NaN => NaN
  | _, _ => if num_leb acc v then acc else v
  end.

Definition max2 (acc v : number) : number :=
  match acc, v with
  | NaN, _ | _, NaN => NaN
  | _, _ => if num_leb v acc then acc else v
  end.

(** [Math.min(...args)]: starts from [+Infinity]. *)
Definition Math_min (args : list number) : number := foldl min2 Infinity args.

(** [Math.max(...args)]: starts from [-Infinity]. *)
Definition Math_max (args : list number) : number := foldl max2 NegInfinity args.

(** [ToNumber] on what an array read yields: a missing index reads
    [undefined], and [ToNumber(undefined)] is NaN. *)
Definition ToNumber (v : option number) : number := default NaN v.

(* ===================================================================== *)
(** ** Values carried by decoded messages *)
(* ===================================================================== *)

(** [LineData] as [PlotComponent] uses it: [x] and [y] are indexed and
    spread as plain arrays of numbers. *)
Record LineData : Type := mkLineData {
  key : string;
  color : option string;
  x : list number;
  y : list number;
  line_on : bool;
  point_size : option number;
}.

(** The JavaScript values that reach the component: [decode] is untyped at
    run time, so a field may be absent ([undefined]), a string, one line
    object, an array, or an object that is only partly a line object.
    [JObject ox oy] is an object whose property [x] is the array of numbers
    [xs] when [ox = Some xs], and is missing, or of a kind that can neither
    be indexed into a sample nor spread (null, a number, a boolean, a plain
    object), when [ox = None]; likewise [oy] for its property [y].  An
    object whose [x] or [y] is a string, or an array holding values other
    than numbers, is not represented. *)
Inductive JSValue : Type :=
  | JUndefined
  | JString (s : string)
  | JLine (d : LineData)
  | JArray (l : list JSValue)
  | JObject (ox oy : option (list number)).

(** A decoded message is an object: a finite map from property names to
    values.  Reading an absent property gives [undefined]. *)
Abbreviation Message := (gmap string JSValue).

Definition get_prop (m : Message) (name : string) : JSValue :=
  default JUndefined (m !! name).

(** Completion of a computation: a value, or a thrown [TypeError]. *)
Inductive Completion (A : Type) : Type :=
  | Normal (a : A)
  | TypeError.
Arguments Normal {A} a.
Arguments TypeError {A}.

(* ===================================================================== *)
(** ** Axis domains *)
(* ===================================================================== *)

Abbreviation Domain := (number * number)%type.

(** What the property read by [axis] ([x] or [y]) is on an object given by
    its two optional sample arrays. *)
Class ObjectAxis (axis : LineData → list number) : Type :=
  object_samples : option (list number) → option (list number) →
                   option (list number).

#[global] Instance x_ObjectAxis : ObjectAxis x := λ ox _, ox.
#[global] Instance y_ObjectAxis : ObjectAxis y := λ _ oy, oy.

(** [e.x] (or [e.y]) followed by an index or a spread, for an element [e]
    of the series array.  A line object gives its sample array, and so does
    any object that has an array of numbers under that property, whatever
    it has under the other one.  On [undefined] the property read throws;
    on a string, an array, or an object without an array under that
    property, the index or spread that follows throws. *)
Definition samples_of (axis : LineData → list number) `{!ObjectAxis axis}
    (e : JSValue) : Completion (list number) :=
  match e with
  | JLine d => Normal (axis d)
  | JObject ox oy =>
      match object_samples (axis := axis) ox oy with
      | Some s => Normal s
      | None => TypeError
      end
  | _ => TypeError
  end.

(** The [for] loop of the domain computation over the remaining elements,
    with the running [minimum] and [maximum]. *)
Fixpoint domain_loop (axis : LineData → list number) `{!ObjectAxis axis}
    (rest : list JSValue) (minimum maximum : number) : Completion Domain :=
  match rest with
  | [] => Normal (minimum, maximum)
  | e :: rest' =>
      match samples_of axis e with
      | TypeError => TypeError
      | Normal s =>
          domain_loop axis rest'
            (Math_min (s ++ [minimum])) (Math_max (s ++ [maximum]))
      end
  end.

(** The body shared by [calculateMultiXDomain] and [calculateMultiYDomain],
    which differ only in the sample array they read.  [multilineData[0]] is
    [undefined] on an empty array, on an object and on an empty string, and
    its property read throws; on a non-empty string it is a character,
    whose property is [undefined], and indexing that throws.  The seed
    [multilineData[0].x[0]] may be [undefined]; it is first used as an
    argument of [Math.min]/[Math.max], which take its [ToNumber], and the
    loop runs at least once, so the seed is held as a number. *)
Definition calculateMultiDomain (axis : LineData → list number)
    `{!ObjectAxis axis} (multilineData : JSValue) : Completion Domain :=
  match multilineData with
  | JArray ((e0 :: _) as elems) =>
      match samples_of axis e0 with
      | TypeError => TypeError
      | Normal s0 =>
          let minimum := ToNumber (s0 !! 0%nat) in
          let maximum := ToNumber (s0 !! 0%nat) in
          domain_loop axis elems minimum maximum
      end
  | _ => TypeError
  end.

Definition calculateMultiXDomain : JSValue → Completion Domain :=
  calculateMultiDomain x.

Definition calculateMultiYDomain : JSValue → Completion Domain :=
  calculateMultiDomain y.

(** The series of a collection as an array value. *)
Definition lines (ds : list LineData) : JSValue := JArray (JLine <$> ds).

(* ===================================================================== *)
(** ** The page: component instance, socket and job queue *)
(* ===================================================================== *)

Module Plot.

(** Outbound messages.  [params] is [{status}] or [{line_id}]. *)
Inductive Params : Type :=
  | StatusParams (status : string)
  | NewLineParams (line_id : string).

Record PlotMessage : Type := mkPlotMessage {
  plot_id : string;
  type : Z;
  params : Params;
}.

(** What is left of an [async] function at its [await].  The only [await]
    of the component is the one of [sendNewLineRequest], whose remainder
    needs [nextLineID]. *)
Inductive Continuation : Type :=
  | AfterOpenSocket (nextLineID : Z).

Definition CONNECTING : Z := 0.
Definition OPEN : Z := 1.
Definition CLOSING : Z := 2.
Definition CLOSED : Z := 3.

(** The browser's [WebSocket].  [sent] lists the objects whose
    [JSON.stringify] was handed to [send] while the socket was open, oldest
    first.  A listener of [open] registered by [waitForOpenSocket] is the
    [resolve] function of a promise; it is held as the list of the
    continuations that await that promise. *)
Record WebSocket : Type := mkWebSocket {
  readyState : Z;
  open_listeners : list (list Continuation);
  sent : list PlotMessage;
}.

(** The promise returned by [waitForOpenSocket]: already fulfilled, or
    pending until the listener at the given position fires. *)
Inductive Promise : Type :=
  | Fulfilled
  | PendingOn (listener : nat).

(** The component instance with its socket, and the job (microtask) queue
    of the page.  A [setState] is taken to be applied by the time the
    handler that issued it returns. *)
Record Page : Type := mkPage {
  props_plot_id : string;
  state_multilineData : JSValue;
  socket : WebSocket;
  lineID : Z;
  multilineXDomain : Domain;
  multilineYDomain : Domain;
  jobs : list Continuation;
}.

(** Errors a handler can throw. *)
Inductive Thrown : Type :=
  | ThrownTypeError
  | InvalidStateError.

(** Handlers run in a state monad over the page in which an exception ends
    the computation and keeps the page as it was when thrown. *)
Inductive Result (A : Type) : Type :=
  | Returned (a : A)
  | Threw (e : Thrown).
Arguments Returned {A} a.
Arguments Threw {A} e.

Definition M (A : Type) : Type := Page → Result A * Page.

Definition ret {A} (a : A) : M A := λ p, (Returned a, p).
Definition throw {A} (e : Thrown) : M A := λ p, (Threw e, p).
Definition bind {A B} (m : M A) (k : A → M B) : M B :=
  λ p, match m p with
       | (Returned a, p') => k a p'
       | (Threw e, p') => (Threw e, p')
       end.
Definition get : M Page := λ p, (Returned p, p).
Definition modify (f : Page → Page) : M unit := λ p, (Returned tt, f p).

#[global] Instance M_ret : MRet M := @ret.
#[global] Instance M_bind : MBind M := λ A B k m, bind m k.

(** A pure computation that may throw a [TypeError]. *)
Definition lift {A} (c : Completion A) : M A :=
  match c with
  | Normal a => ret a
  | TypeError => throw ThrownTypeError
  end.

Definition with_multilineData (v : JSValue) (p : Page) : Page :=
  mkPage (props_plot_id p) v (socket p) (lineID p)
         (multilineXDomain p) (multilineYDomain p) (jobs p).
Definition with_socket (s : WebSocket) (p : Page) : Page :=
  mkPage (props_plot_id p) (state_multilineData p) s (lineID p)
         (multilineXDomain p) (multilineYDomain p) (jobs p).
Definition with_lineID (n : Z) (p : Page) : Page :=
  mkPage (props_plot_id p) (state_multilineData p) (socket p) n
         (multilineXDomain p) (multilineYDomain p) (jobs p).
Definition with_XDomain (d : Domain) (p : Page) : Page :=
  mkPage (props_plot_id p) (state_multilineData p) (socket p) (lineID p)
         d (multilineYDomain p) (jobs p).
Definition with_YDomain (d : Domain) (p : Page) : Page :=
  mkPage (props_plot_id p) (state_multilineData p) (socket p) (lineID p)
         (multilineXDomain p) d (jobs p).
Definition with_jobs (js : list Continuation) (p : Page) : Page :=
  mkPage (props_plot_id p) (state_multilineData p) (socket p) (lineID p)
         (multilineXDomain p) (multilineYDomain p) js.

(** [this.socket.send(JSON.stringify(message))].  [send] throws while the
    socket is connecting, transmits while it is open, and drops the data
    once it is closing or closed. *)
Definition socket_send (message : PlotMessage) : M unit :=
  p ← get;
  let s := socket p in
  if decide (readyState s = CONNECTING) then throw InvalidStateError
  else if decide (readyState s = OPEN) then
    modify (with_socket
      (mkWebSocket (readyState s) (open_listeners s) (sent s ++ [message])))
  else ret tt.

(** The status message built in [onopen] and after each handled message. *)
Definition ready_status (id : string) : PlotMessage :=
  mkPlotMessage id 0 (StatusParams "ready").

(** [plot_multiline_data]: both domains are computed from [message.data]
    before the state is replaced by it. *)
Definition plot_multiline_data (message : Message) : M unit :=
  let multilineData := get_prop message "data" in
  xd ← lift (calculateMultiXDomain multilineData);
  modify (with_XDomain xd);;
  yd ← lift (calculateMultiYDomain multilineData);
  modify (with_YDomain yd);;
  modify (with_multilineData multilineData).

(** [multilineData.push(newLineData)] on the array held in the state: the
    array is extended in place.  A value that is not an array has no [push]
    method and the call throws. *)
Definition push_multilineData (newLineData : JSValue) : M unit :=
  p ← get;
  match state_multilineData p with
  | JArray l => modify (with_multilineData (JArray (l ++ [newLineData])))
  | _ => throw ThrownTypeError
  end.

(** [plot_new_line_data]: the new series is pushed onto the state's own
    array, then both domains are computed from that array; the final
    [setState] stores the same array again. *)
Definition plot_new_line_data (message : Message) : M unit :=
  let newLineData := get_prop message "data" in
  push_multilineData newLineData;;
  p ← get;
  let multilineData := state_multilineData p in
  xd ← lift (calculateMultiXDomain multilineData);
  modify (with_XDomain xd);;
  yd ← lift (calculateMultiYDomain multilineData);
  modify (with_YDomain yd);;
  modify (with_multilineData multilineData).

Definition clear_all_line_data : M unit :=
  modify (with_XDomain (num_of_Z 0, num_of_Z 1));;
  modify (with_YDomain (num_of_Z 0, num_of_Z 1));;
  modify (with_multilineData (JArray [])).

(** [socket.onmessage], on the decoded message.  The [switch] compares
    [decoded_message["type"]] with the three literals by strict equality,
    so only a string can match. *)
Definition onmessage (decoded_message : Message) : M unit :=
  p ← get;
  match get_prop decoded_message "type" with
  | JString t =>
      if decide (t = "multiline data") then
        plot_multiline_data decoded_message;;
        socket_send (ready_status (props_plot_id p))
      else if decide (t = "new line data") then
        plot_new_line_data decoded_message;;
        socket_send (ready_status (props_plot_id p))
      else if decide (t = "clear plots") then
        clear_all_line_data;;
        socket_send (ready_status (props_plot_id p))
      else ret tt
  | _ => ret tt
  end.

(** [socket.onopen]. *)
Definition onopen : M unit :=
  p ← get;
  socket_send (ready_status (props_plot_id p)).

(** [String(nextLineID)] for the integer values the line counter takes. *)
Definition String_ (n : Z) : string := pretty n.

Definition new_line_request (id : string) (nextLineID : Z) : PlotMessage :=
  mkPlotMessage id 1 (NewLineParams (String_ nextLineID)).

(** [waitForOpenSocket]: the executor of the new promise runs at once.
    When the socket is not open it registers a listener of [open] that
    will resolve the promise, which nothing awaits yet; when the socket is
    open it resolves the promise on the spot. *)
Definition waitForOpenSocket : M Promise :=
  p ← get;
  let s := socket p in
  if decide (readyState s ≠ OPEN) then
    modify (with_socket
      (mkWebSocket (readyState s) (open_listeners s ++ [[]]) (sent s)));;
    mret (PendingOn (length (open_listeners s)))
  else
    mret Fulfilled.

(** [await promise], with [k] the rest of the calling function: on a
    fulfilled promise the rest is queued as a job; on a pending one the
    caller stays suspended, its rest recorded with the promise. *)
Definition await (promise : Promise) (k : Continuation) : M unit :=
  match promise with
  | Fulfilled => modify (λ p, with_jobs (jobs p ++ [k]) p)
  | PendingOn i =>
      modify (λ p,
        let s := socket p in
        with_socket
          (mkWebSocket (readyState s)
             (alter (λ ks, ks ++ [k]) i (open_listeners s)) (sent s)) p)
  end.

(** [sendNewLineRequest] up to its [await] ... *)
Definition sendNewLineRequest (nextLineID : Z) : M unit :=
  promise ← waitForOpenSocket;
  await promise (AfterOpenSocket nextLineID).

(** ... and from its [await] to its end. *)
Definition resume (k : Continuation) : M unit :=
  match k with
  | AfterOpenSocket nextLineID =>
      p ← get;
      socket_send (new_line_request (props_plot_id p) nextLineID)
  end.

Definition handleAddLine : M unit :=
  modify (λ p, with_lineID (lineID p + 1) p);;
  p ← get;
  sendNewLineRequest (lineID p).

(* --------------------------------------------------------------------- *)
(** *** The event loop *)

(** A handler called from the event loop: an exception it throws is
    reported and the page stays as it was when thrown. *)
Definition call (h : M unit) (p : Page) : Page := (h p).2.

(** Run the queued jobs in order.  [resume] queues no job (see
    [resume_jobs]), so one pass empties the queue. *)
Definition run_jobs (p : Page) : Page :=
  foldl (λ q k, call (resume k) q) (with_jobs [] p) (jobs p).

(** One task: the handler, then the jobs it queued. *)
Definition task (h : M unit) (p : Page) : Page := run_jobs (call h p).

(** A listener registered by [waitForOpenSocket] fires: it resolves its
    promise, which queues the callers suspended on it. *)
Definition open_listener (awaiting : list Continuation) : M unit :=
  modify (λ p, with_jobs (jobs p ++ awaiting) p).

(** The socket's [open] event: the state becomes [OPEN], then [onopen]
    (installed at mount, before any listener) and the listeners run in
    order of registration, each followed by the jobs it queued. *)
Definition dispatch_open (p : Page) : Page :=
  let s := socket p in
  let p1 := with_socket (mkWebSocket OPEN (open_listeners s) (sent s)) p in
  foldl (λ q ks, task (open_listener ks) q) (task onopen p1) (open_listeners s).

Definition dispatch_close (p : Page) : Page :=
  let s := socket p in
  with_socket (mkWebSocket CLOSED (open_listeners s) (sent s)) p.

Inductive Event : Type :=
  | SocketOpen
  | SocketMessage (decoded_message : Message)
  | SocketClose
  | AddLineClick.

(** What an event does to the page; [None] when the browser cannot deliver
    it in that state: a socket opens once, from [CONNECTING], delivers
    messages only while [OPEN], and closes once. *)
Definition step (e : Event) (p : Page) : option Page :=
  match e with
  | SocketOpen =>
      if decide (readyState (socket p) = CONNECTING)
      then Some (dispatch_open p) else None
  | SocketMessage m =>
      if decide (readyState (socket p) = OPEN)
      then Some (task (onmessage m) p) else None
  | SocketClose =>
      if decide (readyState (socket p) = CLOSED)
      then None else Some (dispatch_close p)
  | AddLineClick => Some (task handleAddLine p)
  end.

Fixpoint run (events : list Event) (p : Page) : option Page :=
  match events with
  | [] => Some p
  | e :: events' =>
      match step e p with
      | Some p' => run events' p'
      | None => None
      end
  end.

(** The page once the component is constructed and mounted: a connecting
    socket, no series, [lineID = 3], both domains [[0, 0]]. *)
Definition mounted (id : string) : Page :=
  mkPage id (JArray []) (mkWebSocket CONNECTING [] []) 3
         (num_of_Z 0, num_of_Z 0) (num_of_Z 0, num_of_Z 0) [].

Definition reachable (p : Page) : Prop :=
  ∃ id events, run events (mounted id) = Some p.

(** The add-line requests among the sent messages. *)
Definition add_line_requests (ms : list PlotMessage) : list PlotMessage :=
  filter (λ m, type m = 1) ms.

End Plot.

(* ===================================================================== *)
(** ** The selection component *)
(* ===================================================================== *)

Module Selection.

(** [Vector3] of three.js, with the operations the component uses. *)
Record Vector3 : Type := mkVector3 {
  x : number;
  y : number;
  z : number;
}.

(** [new Vector3(a, b)]: the third coordinate defaults to 0. *)
Definition Vector3_xy (a b : number) : Vector3 := mkVector3 a b (num_of_Z 0).

(** [v.sub(o)]. *)
Definition sub (v o : Vector3) : Vector3 :=
  mkVector3 (num_sub (x v) (x o)) (num_sub (y v) (y o)) (num_sub (z v) (z o)).

Section Flipped.

(** The canvas context supplies the transform from data to screen space. *)
Variable Camera : Type.
Variable dataToHtml : Camera → Vector3 → Vector3.

(** The body of the [isFlipped] memo. *)
Definition isFlipped (camera : Camera) : bool * bool :=
  let o := dataToHtml camera (Vector3_xy (num_of_Z 0) (num_of_Z 0)) in
  let v := sub (dataToHtml camera (Vector3_xy (num_of_Z 1) (num_of_Z 1))) o in
  (num_ltb (x v) (num_of_Z 0), num_ltb (y v) (num_of_Z 0)).

End Flipped.

(** Modelled from the spec: the enumeration [SelectionType] is declared in
    the [selections] file of the repository, which is not among the sources
    at hand; its values are taken to be the keys of the [counters] object
    that the component indexes with them. *)
Inductive SelectionType : Type :=
  | line | rectangle | polyline | polygon | circle | ellipse | sector
  | unknown.

(** The [counters] state object. *)
Record Counters : Type := mkCounters {
  c_line : Z;
  c_rectangle : Z;
  c_polyline : Z;
  c_polygon : Z;
  c_circle : Z;
  c_ellipse : Z;
  c_sector : Z;
  c_unknown : Z;
}.

Definition initial_counters : Counters := mkCounters 0 0 0 0 0 0 0 0.

(** [counters[t]]. *)
Definition counter (c : Counters) (t : SelectionType) : Z :=
  match t with
  | line => c_line c
  | rectangle => c_rectangle c
  | polyline => c_polyline c
  | polygon => c_polygon c
  | circle => c_circle c
  | ellipse => c_ellipse c
  | sector => c_sector c
  | unknown => c_unknown c
  end.

(** [updateCounters(t)]: [newCounters] is the state object itself, so
    [newCounters[t]++] increments the entry of [t] in place. *)
Definition updateCounters (t : SelectionType) (c : Counters) : Counters :=
  match t with
  | line => mkCounters (c_line c + 1) (c_rectangle c) (c_polyline c)
      (c_polygon c) (c_circle c) (c_ellipse c) (c_sector c) (c_unknown c)
  | rectangle => mkCounters (c_line c) (c_rectangle c + 1) (c_polyline c)
      (c_polygon c) (c_circle c) (c_ellipse c) (c_sector c) (c_unknown c)
  | polyline => mkCounters (c_line c) (c_rectangle c) (c_polyline c + 1)
      (c_polygon c) (c_circle c) (c_ellipse c) (c_sector c) (c_unknown c)
  | polygon => mkCounters (c_line c) (c_rectangle c) (c_polyline c)
      (c_polygon c + 1) (c_circle c) (c_ellipse c) (c_sector c) (c_unknown c)
  | circle => mkCounters (c_line c) (c_rectangle c) (c_polyline c)
      (c_polygon c) (c_circle c + 1) (c_ellipse c) (c_sector c) (c_unknown c)
  | ellipse => mkCounters (c_line c) (c_rectangle c) (c_polyline c)
      (c_polygon c) (c_circle c) (c_ellipse c + 1) (c_sector c) (c_unknown c)
  | sector => mkCounters (c_line c) (c_rectangle c) (c_polyline c)
      (c_polygon c) (c_circle c) (c_ellipse c) (c_sector c + 1) (c_unknown c)
  | unknown => mkCounters (c_line c) (c_rectangle c) (c_polyline c)
      (c_polygon c) (c_circle c) (c_ellipse c) (c_sector c) (c_unknown c + 1)
  end.

(** Modelled from the spec: the region type, built by [pointsToSelection]
    in the [selections] file, is not among the sources at hand.  A region
    has a kind, a generated id (the kind with the running counter), a style
    and data-space coordinates. *)
Record SelectionRegion : Type := mkRegion {
  region_kind : SelectionType;
  region_id : SelectionType * Z;
  region_colour : string;
  region_alpha : number;
  region_points : list Vector3;
}.

(** Modelled from the spec: [pointsToSelection] of the [selections] file is
    not among the sources at hand.  It wraps the data-space points into a
    region of the selected kind, whose id is made of the kind and of the
    counter passed in, and increments that kind's counter exactly once
    through the [updateCounters] callback. *)
Definition pointsToSelection (selectionType : SelectionType)
    (data : list Vector3) (colour : string) (alpha : number) (n : Z)
    (update : SelectionType → Counters → Counters) (c : Counters)
  : SelectionRegion * Counters :=
  (mkRegion selectionType (selectionType, n) colour alpha data,
   update selectionType c).

(** A gesture handed over by the selection tool: its points in screen
    space ([html]) and in data space ([data]). *)
Record Gesture : Type := mkGesture {
  html : list Vector3;
  data : list Vector3;
}.

(** Modelled from the spec: [Box] comes with the plotting library and is
    not among the sources at hand.  [Box.fromPoints] is the bounding box of
    the points; its dimensions are the extents along x and y. *)
Definition box_width (points : list Vector3) : number :=
  num_sub (Math_max (x <$> points)) (Math_min (x <$> points)).

Definition box_height (points : list Vector3) : number :=
  num_sub (Math_max (y <$> points)) (Math_min (y <$> points)).

(** Modelled from the spec: [hasMinSize(m)] holds when both dimensions of
    the box are at least [m]. *)
Definition hasMinSize (points : list Vector3) (m : number) : bool :=
  num_leb m (box_width points) && num_leb m (box_height points).

(** The [validate] callback given to the selection tool. *)
Definition validate (g : Gesture) : bool :=
  hasMinSize (html g) (num_of_Z 20).

(** The counters of the component, and the region collection.  Modelled
    from the spec: [props.addSelection] is supplied by the parent; the
    region collaborator stores each committed region, here at the end of
    [selections]. *)
Record State : Type := mkState {
  counters : Counters;
  selections : list SelectionRegion;
}.

Definition def_colour : string := "blue".
Definition def_alpha : number := Finite (3 # 10).

(** The [onValidSelection] callback given to the selection tool. *)
Definition onValidSelection (selectionType : SelectionType) (g : Gesture)
    (st : State) : State :=
  let (s, c) :=
    pointsToSelection selectionType (data g) def_colour def_alpha
      (counter (counters st) selectionType) updateCounters (counters st) in
  mkState c (selections st ++ [s]).

(** Modelled from the spec: the selection tool comes with the plotting
    library.  On pointer-up it applies [validate] to the gesture; a valid
    gesture is handed to [onValidSelection] once, an invalid one is
    discarded. *)
Definition pointer_up (selectionType : SelectionType) (g : Gesture)
    (st : State) : State :=
  if validate g then onValidSelection selectionType g st else st.

End Selection.

(* ===================================================================== *)
(** ** What the design document asks of a domain *)
(* ===================================================================== *)

(** [dom] is attained on both ends by samples of [ds] along [axis] and
    contains every sample. *)
Definition domain_of (axis : LineData → list number) (ds : list LineData)
    (dom : Domain) : Prop :=
  (∃ d, d ∈ ds ∧ dom.1 ∈ axis d) ∧
  (∃ d, d ∈ ds ∧ dom.2 ∈ axis d) ∧
  (∀ d v, d ∈ ds → v ∈ axis d → num_le dom.1 v ∧ num_le v dom.2).

(** No sample of [ds] along [axis] is NaN. *)
Definition no_NaN (axis : LineData → list number) (ds : list LineData) : Prop :=
  ∀ d v, d ∈ ds → v ∈ axis d → v ≠ NaN.

(** Series of the scenarios of the design document, and two degenerate
    ones. *)
Definition seriesA : LineData :=
  mkLineData "A" None [num_of_Z 0; num_of_Z 1] [num_of_Z 0; num_of_Z 1] true None.
Definition seriesB : LineData :=
  mkLineData "B" None [num_of_Z 0; num_of_Z 2] [num_of_Z 2; num_of_Z 0] true None.
Definition seriesC : LineData :=
  mkLineData "C" None [num_of_Z 5] [num_of_Z 5] true None.
Definition seriesEmpty : LineData := mkLineData "E" None [] [] true None.
Definition seriesNaN : LineData := mkLineData "N" None [NaN] [NaN] true None.

(** Messages and pages used as concrete cases below. *)
Definition msg_multiline_AB : Message :=
  {[ "type" := JString "multiline data"; "data" := lines [seriesA; seriesB] ]}.
Definition msg_new_line_C : Message :=
  {[ "type" := JString "new line data"; "data" := JLine seriesC ]}.
Definition msg_clear : Message := {[ "type" := JString "clear plots" ]}.
Definition msg_multiline_empty : Message :=
  {[ "type" := JString "multiline data"; "data" := lines [] ]}.
Definition msg_ml_data_AB : Message :=
  {[ "type" := JString "multiline data"; "ml_data" := lines [seriesA; seriesB] ]}.
Definition msg_al_data_C : Message :=
  {[ "type" := JString "new line data"; "al_data" := JLine seriesC ]}.
Definition msg_multiline_x_only : Message :=
  {[ "type" := JString "multiline data";
     "data" := JArray [JObject (Some [num_of_Z 5; num_of_Z 7]) None] ]}.
Definition msg_new_line_x_only : Message :=
  {[ "type" := JString "new line data";
     "data" := JObject (Some [num_of_Z 5; num_of_Z 7]) None ]}.
Definition msg_both_fields : Message :=
  {[ "type" := JString "multiline data"; "data" := lines [seriesC];
     "ml_data" := lines [seriesA; seriesB] ]}.

(** A page whose socket has opened and which shows the series A and B. *)
Definition page_AB : Plot.Page :=
  Plot.mkPage "plot_0" (lines [seriesA; seriesB])
    (Plot.mkWebSocket Plot.OPEN [] [Plot.ready_status "plot_0"]) 3
    (num_of_Z 0, num_of_Z 2) (num_of_Z 0, num_of_Z 2) [].

(** A page whose socket has opened and which shows nothing yet. *)
Definition page_open : Plot.Page :=
  Plot.mkPage "plot_0" (JArray [])
    (Plot.mkWebSocket Plot.OPEN [] [Plot.ready_status "plot_0"]) 3
    (num_of_Z 0, num_of_Z 0) (num_of_Z 0, num_of_Z 0) [].

(** The pages of the scenarios of the design document. *)
Definition page_AB_acked : Plot.Page :=
  Plot.mkPage "plot_0" (lines [seriesA; seriesB])
    (Plot.mkWebSocket Plot.OPEN []
       [Plot.ready_status "plot_0"; Plot.ready_status "plot_0"]) 3
    (num_of_Z 0, num_of_Z 2) (num_of_Z 0, num_of_Z 2) [].
Definition page_ABC : Plot.Page :=
  Plot.mkPage "plot_0" (lines [seriesA; seriesB; seriesC])
    (Plot.mkWebSocket Plot.OPEN []
       [Plot.ready_status "plot_0"; Plot.ready_status "plot_0";
        Plot.ready_status "plot_0"]) 3
    (num_of_Z 0, num_of_Z 5) (num_of_Z 0, num_of_Z 5) [].
Definition page_cleared : Plot.Page :=
  Plot.mkPage "plot_0" (JArray [])
    (Plot.mkWebSocket Plot.OPEN []
       [Plot.ready_status "plot_0"; Plot.ready_status "plot_0";
        Plot.ready_status "plot_0"; Plot.ready_status "plot_0"]) 3
    (num_of_Z 0, num_of_Z 1) (num_of_Z 0, num_of_Z 1) [].

(** What every reachable page satisfies about its store: the collection is
    an array, and when it is empty the y domain is either the initial
    [[0, 0]] or the [[0, 1]] set by a clear.  (The x domain of an empty
    collection can be anything: a multiline message whose elements have x
    samples but no y samples overwrites it and then throws.) *)
Definition store_inv (p : Plot.Page) : Prop :=
  ∃ l, Plot.state_multilineData p = JArray l ∧
       (l = [] →
        Plot.multilineYDomain p = (num_of_Z 0, num_of_Z 0) ∨
        Plot.multilineYDomain p = (num_of_Z 0, num_of_Z 1)).

(** The request that a suspended [sendNewLineRequest] sends when resumed
    on the page of plot [id]. *)
Definition request_of (id : string) (k : Plot.Continuation) : Plot.PlotMessage :=
  match k with
  | Plot.AfterOpenSocket nextLineID => Plot.new_line_request id nextLineID
  end.

(** The page [p] after its socket has sent the messages [ms]. *)
Definition having_sent (ms : list Plot.PlotMessage) (p : Plot.Page) : Plot.Page :=
  Plot.with_socket
    (Plot.mkWebSocket (Plot.readyState (Plot.socket p))
       (Plot.open_listeners (Plot.socket p))
       (Plot.sent (Plot.socket p) ++ ms)) p.

(** A page on which the add-line action was used while the socket was
    still connecting. *)
Definition page_connecting : Plot.Page :=
  Plot.mkPage "plot_0" (JArray [])
    (Plot.mkWebSocket Plot.CONNECTING [[Plot.AfterOpenSocket 4]] []) 4
    (num_of_Z 0, num_of_Z 0) (num_of_Z 0, num_of_Z 0) [].

(** The number of activations of the add-line action among [events]. *)
Fixpoint clicks (events : list Plot.Event) : nat :=
  match events with
  | [] => 0
  | Plot.AddLineClick :: events' => S (clicks events')
  | _ :: events' => clicks events'
  end.

(** What holds between tasks on the page of plot [id] after [n] activations
    of the add-line action: the counter stands at [3 + n]; no job is left;
    while the socket connects, the callers of [sendNewLineRequest] wait, in
    order, for the ids 4, 5, ...; once it is open, the requests for these
    ids have been sent, in order; and whatever the socket's state, the
    requests sent so far are those for the first few of these ids. *)
Definition line_inv (id : string) (n : nat) (p : Plot.Page) : Prop :=
  Plot.props_plot_id p = id ∧
  Plot.lineID p = 3 + Z.of_nat n ∧
  Plot.jobs p = [] ∧
  (Plot.readyState (Plot.socket p) = Plot.CONNECTING →
   Plot.add_line_requests (Plot.sent (Plot.socket p)) = [] ∧
   Plot.open_listeners (Plot.socket p) =
     (λ k, [Plot.AfterOpenSocket k]) <$> seqZ 4 (Z.of_nat n)) ∧
  (Plot.readyState (Plot.socket p) = Plot.OPEN →
   Plot.add_line_requests (Plot.sent (Plot.socket p)) =
     Plot.new_line_request id <$> seqZ 4 (Z.of_nat n)) ∧
  (∃ k : nat, (k ≤ n)%nat ∧
   Plot.add_line_requests (Plot.sent (Plot.socket p)) =
     Plot.new_line_request id <$> seqZ 4 (Z.of_nat k)).

(** The page after the socket has opened and the add-line action has been
    used twice. *)
Definition page_two_requests : Plot.Page :=
  Plot.mkPage "plot_0" (JArray [])
    (Plot.mkWebSocket Plot.OPEN []
       [Plot.ready_status "plot_0";
        Plot.mkPlotMessage "plot_0" 1 (Plot.NewLineParams "4");
        Plot.mkPlotMessage "plot_0" 1 (Plot.NewLineParams "5")]) 5
    (num_of_Z 0, num_of_Z 0) (num_of_Z 0, num_of_Z 0) [].

(** Gestures: one of 10 by 10 screen units, one of 30 by 40, one of 30 by
    5, each with its corners in data space. *)
Definition gesture_small : Selection.Gesture :=
  Selection.mkGesture
    [Selection.Vector3_xy (num_of_Z 100) (num_of_Z 100);
     Selection.Vector3_xy (num_of_Z 110) (num_of_Z 90)]
    [Selection.Vector3_xy (num_of_Z 1) (num_of_Z 1);
     Selection.Vector3_xy (num_of_Z 2) (num_of_Z 2)].
Definition gesture_large : Selection.Gesture :=
  Selection.mkGesture
    [Selection.Vector3_xy (num_of_Z 100) (num_of_Z 100);
     Selection.Vector3_xy (num_of_Z 130) (num_of_Z 60)]
    [Selection.Vector3_xy (num_of_Z 1) (num_of_Z 1);
     Selection.Vector3_xy (num_of_Z 4) (num_of_Z 5)].
Definition gesture_thin : Selection.Gesture :=
  Selection.mkGesture
    [Selection.Vector3_xy (num_of_Z 100) (num_of_Z 100);
     Selection.Vector3_xy (num_of_Z 130) (num_of_Z 95)]
    [Selection.Vector3_xy (num_of_Z 1) (num_of_Z 1);
     Selection.Vector3_xy (num_of_Z 4) (num_of_Z 2)].

Definition selection_start : Selection.State :=
  Selection.mkState Selection.initial_counters [].

(** A transform that keeps x and mirrors y, as a canvas does whose origin
    is at the top left. *)
Definition mirror_y (camera : unit) (v : Selection.Vector3) : Selection.Vector3 :=
  Selection.mkVector3 (Selection.x v)
    (num_sub (num_of_Z 400) (Selection.y v)) (Selection.z v).

(* ===================================================================== *)
(** ** What the plot component renders, and well-typed traffic *)
(* ===================================================================== *)

Module PlotView.

(** [CurveType] of the plotting library. *)
Inductive CurveType : Type :=
  | LineOnly
  | GlyphsOnly
  | LineAndGlyphs.

Record LinePlotParameters : Type := mkLinePlotParameters {
  data : JSValue;
  xDomain : Domain;
  yDomain : Domain;
  curveType : CurveType;
}.

(** The [plotParams] that [render] hands to [Plot]. *)
Definition render (p : Plot.Page) : LinePlotParameters :=
  mkLinePlotParameters (Plot.state_multilineData p)
    (Plot.multilineXDomain p) (Plot.multilineYDomain p) LineOnly.

End PlotView.

(** A decoded message is well typed when a "multiline data" message holds
    an array of line objects in [data] and a "new line data" message holds
    one line object there, as the casts in [onmessage] take for granted. *)
Definition well_typed (m : Message) : Prop :=
  (get_prop m "type" = JString "multiline data" →
   ∃ ds, get_prop m "data" = lines ds) ∧
  (get_prop m "type" = JString "new line data" →
   ∃ s, get_prop m "data" = JLine s).

Definition well_typed_event (e : Plot.Event) : Prop :=
  match e with
  | Plot.SocketMessage m => well_typed m
  | _ => True
  end.

(** The ready statuses among the sent messages. *)
Definition status_messages (ms : list Plot.PlotMessage) : list Plot.PlotMessage :=
  filter (λ m, Plot.type m = 0) ms.

(** The number of messages delivered among [events]. *)
Fixpoint deliveries (events : list Plot.Event) : nat :=
  match events with
  | [] => 0
  | Plot.SocketMessage _ :: events' => S (deliveries events')
  | _ :: events' => deliveries events'
  end.

(** The stored domains are those of the stored collection: the collection
    is an array of line objects and, unless it is empty, each stored domain
    is what the domain computation returns on it. *)
Definition store_consistent (p : Plot.Page) : Prop :=
  ∃ ds, Plot.state_multilineData p = lines ds ∧
        (ds ≠ [] →
         calculateMultiXDomain (lines ds) = Normal (Plot.multilineXDomain p) ∧
         calculateMultiYDomain (lines ds) = Normal (Plot.multilineYDomain p)).

(** What holds of the sent messages between tasks: nothing is sent while
    the socket connects, an open socket has sent something, and whatever
    was sent starts with the ready status of [onopen]. *)
Definition sent_inv (id : string) (p : Plot.Page) : Prop :=
  Plot.props_plot_id p = id ∧
  Plot.jobs p = [] ∧
  (Plot.readyState (Plot.socket p) = Plot.CONNECTING →
   Plot.sent (Plot.socket p) = []) ∧
  (Plot.readyState (Plot.socket p) = Plot.OPEN →
   Plot.sent (Plot.socket p) ≠ []) ∧
  (Plot.sent (Plot.socket p) = [] ∨
   head (Plot.sent (Plot.socket p)) = Some (Plot.ready_status id)).

(** What holds of the ready statuses between tasks after [n] deliveries:
    none has been sent while the socket connects, and at most [1 + n] have
    been sent in all. *)
Definition ack_inv (n : nat) (p : Plot.Page) : Prop :=
  Plot.jobs p = [] ∧
  (Plot.readyState (Plot.socket p) = Plot.CONNECTING →
   status_messages (Plot.sent (Plot.socket p)) = []) ∧
  (length (status_messages (Plot.sent (Plot.socket p))) ≤ 1 + n)%nat.

(** The page after the add-line action was used twice while the socket
    was connecting, and the socket then opened. *)
Definition page_opened_late : Plot.Page :=
  Plot.mkPage "plot_0" (JArray [])
    (Plot.mkWebSocket Plot.OPEN
       [[Plot.AfterOpenSocket 4]; [Plot.AfterOpenSocket 5]]
       [Plot.ready_status "plot_0";
        Plot.mkPlotMessage "plot_0" 1 (Plot.NewLineParams "4");
        Plot.mkPlotMessage "plot_0" 1 (Plot.NewLineParams "5")]) 5
    (num_of_Z 0, num_of_Z 0) (num_of_Z 0, num_of_Z 0) [].




(** The page after the socket closed without ever opening and the
    add-line action was then used once. *)
Definition page_closed_waiting : Plot.Page :=
  Plot.mkPage "plot_0" (JArray [])
    (Plot.mkWebSocket Plot.CLOSED [[Plot.AfterOpenSocket 4]] []) 4
    (num_of_Z 0, num_of_Z 0) (num_of_Z 0, num_of_Z 0) [].

(** A page on which a value that is not a line object was pushed. *)
Definition page_poisoned : Plot.Page :=
  Plot.mkPage "plot_0" (JArray [JLine seriesA; JUndefined])
    (Plot.mkWebSocket Plot.OPEN [] [Plot.ready_status "plot_0"]) 3
    (num_of_Z 0, num_of_Z 1) (num_of_Z 0, num_of_Z 1) [].

(** A page whose socket closed before it opened. *)
Definition page_closed : Plot.Page :=
  Plot.mkPage "plot_0" (JArray [])
    (Plot.mkWebSocket Plot.CLOSED [] []) 3
    (num_of_Z 0, num_of_Z 0) (num_of_Z 0, num_of_Z 0) [].

Definition msg_unknown : Message := {[ "type" := JString "image data" ]}.
Definition msg_untagged : Message := {[ "data" := lines [seriesA] ]}.
Definition msg_multiline_ABC : Message :=
  {[ "type" := JString "multiline data";
     "data" := lines [seriesA; seriesB; seriesC] ]}.

#[global] Instance SelectionType_eq_dec : EqDecision Selection.SelectionType.
Proof. solve_decision. Defined.

(** The number of commits of kind [t] among [kinds]. *)
Definition commits_of (t : Selection.SelectionType)
    (kinds : list Selection.SelectionType) : Z :=
  Z.of_nat (length (filter (λ t', t' = t) kinds)).

(* ===================================================================== *)
(** ** Numbers: order, minimum and maximum *)
(* ===================================================================== *)

Lemma num_leb_refl a : a ≠ NaN → num_leb a a = true.
Proof.
  destruct a as [| |q|]; simpl; try done.
  intros _. apply Qle_bool_iff, Qle_refl.
Qed.

Lemma num_leb_trans a b c :
  num_leb a b = true → num_leb b c = true → num_leb a c = true.
Proof.
  destruct a as [| |p|], b as [| |q|], c as [| |r|]; simpl; try done.
  rewrite !Qle_bool_iff. apply Qle_trans.
Qed.

Lemma num_leb_total a b :
  a ≠ NaN → b ≠ NaN → num_leb a b = false → num_leb b a = true.
Proof.
  destruct a as [| |p|], b as [| |q|]; simpl; try done.
  intros _ _ H. apply Qle_bool_iff.
  destruct (Qlt_le_dec q p) as [Hlt|Hle].
  - by apply Qlt_le_weak.
  - apply Qle_bool_iff in Hle. congruence.
Qed.

Lemma min2_cases a v :
  a ≠ NaN → v ≠ NaN →
  min2 a v ≠ NaN ∧ (min2 a v = a ∨ min2 a v = v) ∧
  num_le (min2 a v) a ∧ num_le (min2 a v) v.
Proof.
  intros Ha Hv. unfold num_le.
  assert (min2 a v = if num_leb a v then a else v) as ->
    by (destruct a, v; done).
  destruct (num_leb a v) eqn:E.
  - split_and!; auto using num_leb_refl.
  - split_and!; auto using num_leb_refl, num_leb_total.
Qed.

Lemma max2_cases a v :
  a ≠ NaN → v ≠ NaN →
  max2 a v ≠ NaN ∧ (max2 a v = a ∨ max2 a v = v) ∧
  num_le a (max2 a v) ∧ num_le v (max2 a v).
Proof.
  intros Ha Hv. unfold num_le.
  assert (max2 a v = if num_leb v a then a else v) as ->
    by (destruct a, v; done).
  destruct (num_leb v a) eqn:E.
  - split_and!; auto using num_leb_refl.
  - split_and!; auto using num_leb_refl, num_leb_total.
Qed.

Lemma foldl_min2_spec (l : list number) : ∀ a,
  a ≠ NaN → Forall (λ v, v ≠ NaN) l →
  foldl min2 a l ≠ NaN ∧
  (foldl min2 a l = a ∨ foldl min2 a l ∈ l) ∧
  num_le (foldl min2 a l) a ∧
  (∀ v, v ∈ l → num_le (foldl min2 a l) v).
Proof.
  induction l as [|w l IH]; intros a Ha Hl; simpl.
  - split_and!; [done | by left | by apply num_leb_refl | ].
    intros v Hv. by apply elem_of_nil in Hv.
  - apply Forall_cons in Hl as [Hw Hl].
    destruct (min2_cases a w Ha Hw) as (Hn & Hc & Hma & Hmw).
    destruct (IH (min2 a w) Hn Hl) as (IHn & IHc & IHa & IHl).
    split_and!; [done | | by eapply num_leb_trans | ].
    + destruct IHc as [->|Hin]; [|right; by apply elem_of_cons; right].
      destruct Hc as [->| ->]; [by left | right; by apply elem_of_cons; left].
    + intros v [->|Hv]%elem_of_cons; [by eapply num_leb_trans | by apply IHl].
Qed.

Lemma foldl_max2_spec (l : list number) : ∀ a,
  a ≠ NaN → Forall (λ v, v ≠ NaN) l →
  foldl max2 a l ≠ NaN ∧
  (foldl max2 a l = a ∨ foldl max2 a l ∈ l) ∧
  num_le a (foldl max2 a l) ∧
  (∀ v, v ∈ l → num_le v (foldl max2 a l)).
Proof.
  induction l as [|w l IH]; intros a Ha Hl; simpl.
  - split_and!; [done | by left | by apply num_leb_refl | ].
    intros v Hv. by apply elem_of_nil in Hv.
  - apply Forall_cons in Hl as [Hw Hl].
    destruct (max2_cases a w Ha Hw) as (Hn & Hc & Hma & Hmw).
    destruct (IH (max2 a w) Hn Hl) as (IHn & IHc & IHa & IHl).
    split_and!; [done | | by eapply num_leb_trans | ].
    + destruct IHc as [->|Hin]; [|right; by apply elem_of_cons; right].
      destruct Hc as [->| ->]; [by left | right; by apply elem_of_cons; left].
    + intros v [->|Hv]%elem_of_cons; [by eapply num_leb_trans | by apply IHl].
Qed.

(** [Math.min] of a non-empty argument list without NaN is one of the
    arguments and is below all of them. *)
Lemma Math_min_spec (args : list number) :
  args ≠ [] → Forall (λ v, v ≠ NaN) args →
  Math_min args ≠ NaN ∧ Math_min args ∈ args ∧
  (∀ v, v ∈ args → num_le (Math_min args) v).
Proof.
  intros Hne Hall. unfold Math_min.
  destruct (foldl_min2_spec args Infinity ltac:(done) Hall) as (Hn & Hc & _ & Hl).
  split_and!; [done| |done].
  destruct Hc as [Heq|Hin]; [|done].
  destruct args as [|v args]; [done|].
  specialize (Hl v ltac:(by left)). rewrite Heq in Hl |- *.
  apply Forall_cons in Hall as [Hv _].
  destruct v; try done. by left.
Qed.

Lemma Math_max_spec (args : list number) :
  args ≠ [] → Forall (λ v, v ≠ NaN) args →
  Math_max args ≠ NaN ∧ Math_max args ∈ args ∧
  (∀ v, v ∈ args → num_le v (Math_max args)).
Proof.
  intros Hne Hall. unfold Math_max.
  destruct (foldl_max2_spec args NegInfinity ltac:(done) Hall) as (Hn & Hc & _ & Hl).
  split_and!; [done| |done].
  destruct Hc as [Heq|Hin]; [|done].
  destruct args as [|v args]; [done|].
  specialize (Hl v ltac:(by left)). rewrite Heq in Hl |- *.
  apply Forall_cons in Hall as [Hv _].
  destruct v; try done. by left.
Qed.

(* ===================================================================== *)
(** ** Domain computation *)
(* ===================================================================== *)

Lemma no_NaN_cons axis d ds :
  no_NaN axis (d :: ds) →
  Forall (λ v, v ≠ NaN) (axis d) ∧ no_NaN axis ds.
Proof.
  intros H. split.
  - apply Forall_forall. intros v Hv. apply (H d v); [by left | done].
  - intros d' v Hd Hv. apply (H d' v); [by right | done].
Qed.

(** The loop over well-formed series never throws; with NaN-free samples
    and NaN-free running values it ends on extrema of what it has seen. *)
Lemma domain_loop_spec axis `{!ObjectAxis axis} (ds : list LineData) : ∀ mn0 mx0,
  mn0 ≠ NaN → mx0 ≠ NaN → no_NaN axis ds →
  ∃ mn mx,
    domain_loop axis (JLine <$> ds) mn0 mx0 = Normal (mn, mx) ∧
    (mn = mn0 ∨ ∃ d, d ∈ ds ∧ mn ∈ axis d) ∧
    (mx = mx0 ∨ ∃ d, d ∈ ds ∧ mx ∈ axis d) ∧
    num_le mn mn0 ∧ num_le mx0 mx ∧
    (∀ d v, d ∈ ds → v ∈ axis d → num_le mn v ∧ num_le v mx).
Proof.
  induction ds as [|d ds IH]; intros mn0 mx0 Hmn Hmx Hnan.
  - exists mn0, mx0.
    split_and!; [done | by left | by left | by apply num_leb_refl
                | by apply num_leb_refl | ].
    intros d v Hd. by apply elem_of_nil in Hd.
  - rewrite fmap_cons. cbn [domain_loop samples_of].
    apply no_NaN_cons in Hnan as [Hd Hds].
    destruct (Math_min_spec (axis d ++ [mn0])) as (Hn1 & Hin1 & Hle1).
    { by destruct (axis d). }
    { apply Forall_app. split; [done | by apply Forall_singleton]. }
    destruct (Math_max_spec (axis d ++ [mx0])) as (Hn2 & Hin2 & Hle2).
    { by destruct (axis d). }
    { apply Forall_app. split; [done | by apply Forall_singleton]. }
    destruct (IH _ _ Hn1 Hn2 Hds) as (mn & mx & -> & Hamn & Hamx & Hlmn & Hlmx & Hall).
    exists mn, mx. split_and!; [done | | | | | ].
    + destruct Hamn as [->|(d' & Hd' & Hv)]; [|right; exists d'; split; [by right|done]].
      apply elem_of_app in Hin1 as [Hin1|Hin1%list_elem_of_singleton]; [|by left].
      right. exists d. split; [by left | done].
    + destruct Hamx as [->|(d' & Hd' & Hv)]; [|right; exists d'; split; [by right|done]].
      apply elem_of_app in Hin2 as [Hin2|Hin2%list_elem_of_singleton]; [|by left].
      right. exists d. split; [by left | done].
    + eapply num_leb_trans; [exact Hlmn|]. apply Hle1, elem_of_app. right. by left.
    + eapply num_leb_trans; [|exact Hlmx]. apply Hle2, elem_of_app. right. by left.
    + intros d' v [->|Hd']%elem_of_cons Hv; [|by apply Hall with d'].
      split.
      * eapply num_leb_trans; [exact Hlmn|]. apply Hle1, elem_of_app. by left.
      * eapply num_leb_trans; [|exact Hlmx]. apply Hle2, elem_of_app. by left.
Qed.

(** On an array of line objects the loop always returns. *)
Lemma domain_loop_total axis `{!ObjectAxis axis} (ds : list LineData) : ∀ mn0 mx0,
  ∃ dom, domain_loop axis (JLine <$> ds) mn0 mx0 = Normal dom.
Proof.
  induction ds as [|d ds IH]; intros mn0 mx0; [by eexists|].
  rewrite fmap_cons. cbn [domain_loop samples_of]. apply IH.
Qed.

(** On a non-empty array of line objects the computation returns. *)
Lemma calculateMultiDomain_total axis `{!ObjectAxis axis} (ds : list LineData) :
  ds ≠ [] → ∃ dom, calculateMultiDomain axis (lines ds) = Normal dom.
Proof.
  destruct ds as [|d ds]; [done|]. intros _.
  unfold calculateMultiDomain, lines. rewrite fmap_cons.
  cbn [samples_of]. rewrite <- fmap_cons. apply domain_loop_total.
Qed.

(** On the empty array the computation throws. *)
Lemma calculateMultiDomain_empty axis `{!ObjectAxis axis} :
  calculateMultiDomain axis (lines []) = TypeError.
Proof. reflexivity. Qed.

Lemma calculateMultiDomain_spec axis `{!ObjectAxis axis} (ds : list LineData) :
  (∃ d0 ds', ds = d0 :: ds' ∧ axis d0 ≠ []) →
  no_NaN axis ds →
  ∃ dom, calculateMultiDomain axis (lines ds) = Normal dom ∧
         domain_of axis ds dom.
Proof.
  intros (d0 & ds' & -> & Hne) Hnan.
  destruct (axis d0) as [|v0 s0] eqn:Hax; [done|].
  assert (v0 ≠ NaN) as Hv0.
  { apply (Hnan d0 v0); [by left | rewrite Hax; by left]. }
  unfold calculateMultiDomain, lines. rewrite fmap_cons.
  cbn [samples_of]. rewrite Hax. rewrite <- fmap_cons.
  change (ToNumber ((v0 :: s0) !! 0%nat)) with v0.
  destruct (domain_loop_spec axis (d0 :: ds') v0 v0 Hv0 Hv0 Hnan)
    as (mn & mx & -> & Hamn & Hamx & _ & _ & Hall).
  exists (mn, mx). split; [done|]. unfold domain_of; simpl.
  assert (∃ d, d ∈ d0 :: ds' ∧ v0 ∈ axis d) as Hseed.
  { exists d0. split; [by left | rewrite Hax; by left]. }
  split_and!; [| |done].
  - destruct Hamn as [->|?]; done.
  - destruct Hamx as [->|?]; done.
Qed.

(** C2 (as amended): for every non-empty list of line series whose first
    series has at least one sample on the axis and none of whose samples on
    the axis is NaN, [calculateMultiXDomain] (for x) and
    [calculateMultiYDomain] (for y) return a pair [min, max] such that min
    and max are each attained by some sample of some series on that axis
    and every sample of every series on that axis lies within [min, max];
    the series may have differing lengths. *)
Theorem calculateMultiDomain_attained_and_bounding (ds : list LineData) :
  ((∃ d0 ds', ds = d0 :: ds' ∧ x d0 ≠ []) → no_NaN x ds →
   ∃ dom, calculateMultiXDomain (lines ds) = Normal dom ∧ domain_of x ds dom) ∧
  ((∃ d0 ds', ds = d0 :: ds' ∧ y d0 ≠ []) → no_NaN y ds →
   ∃ dom, calculateMultiYDomain (lines ds) = Normal dom ∧ domain_of y ds dom).
Proof. split; apply calculateMultiDomain_spec. Qed.

Lemma calculateMultiDomain_witness :
  (∃ dom, calculateMultiXDomain (lines [seriesA; seriesB]) = Normal dom ∧
          domain_of x [seriesA; seriesB] dom) ∧
  (∃ dom, calculateMultiYDomain (lines [seriesA; seriesB]) = Normal dom ∧
          domain_of y [seriesA; seriesB] dom).
Proof.
  destruct (calculateMultiDomain_attained_and_bounding [seriesA; seriesB])
    as [Hx Hy].
  split; [apply Hx | apply Hy].
  - exists seriesA, [seriesB]. split; [reflexivity | discriminate].
  - intros d v Hd Hv.
    repeat (apply elem_of_cons in Hd as [->|Hd]);
      [ | | by apply elem_of_nil in Hd];
      repeat (apply elem_of_cons in Hv as [->|Hv]);
      try discriminate; by apply elem_of_nil in Hv.
  - exists seriesA, [seriesB]. split; [reflexivity | discriminate].
  - intros d v Hd Hv.
    repeat (apply elem_of_cons in Hd as [->|Hd]);
      [ | | by apply elem_of_nil in Hd];
      repeat (apply elem_of_cons in Hv as [->|Hv]);
      try discriminate; by apply elem_of_nil in Hv.
Defined.

(** C2 (as stated) fails: a non-empty list whose only series has no sample
    yields [NaN, NaN], which no sample attains; and a series holding a NaN
    sample yields [NaN, NaN], within which that sample does not lie. *)
Lemma calculateMultiDomain_counterexample :
  ([seriesEmpty] ≠ [] ∧
   calculateMultiXDomain (lines [seriesEmpty]) = Normal (NaN, NaN) ∧
   ¬ domain_of x [seriesEmpty] (NaN, NaN)) ∧
  ([seriesNaN] ≠ [] ∧
   calculateMultiXDomain (lines [seriesNaN]) = Normal (NaN, NaN) ∧
   ¬ domain_of x [seriesNaN] (NaN, NaN)).
Proof.
  split; (split_and!; [done | reflexivity | ]).
  - intros ((d & Hd & Hv) & _).
    apply list_elem_of_singleton in Hd as ->. by apply elem_of_nil in Hv.
  - intros (_ & _ & Hall).
    destruct (Hall seriesNaN NaN) as [H _]; [by left | by left | done].
Qed.

(** A first series without samples poisons the domain of the whole
    collection, whatever the other series hold. *)
Example calculateMultiXDomain_empty_first :
  calculateMultiXDomain (lines [seriesEmpty; seriesB]) = Normal (NaN, NaN).
Proof. reflexivity. Qed.

(** An empty series after the first one is harmless. *)
Example calculateMultiXDomain_empty_later :
  calculateMultiXDomain (lines [seriesB; seriesEmpty])
  = Normal (num_of_Z 0, num_of_Z 2).
Proof. reflexivity. Qed.

(** The multiline scenario of the design document. *)
Example scenario_multiline_domains :
  calculateMultiXDomain (lines [seriesA; seriesB]) = Normal (num_of_Z 0, num_of_Z 2) ∧
  calculateMultiYDomain (lines [seriesA; seriesB]) = Normal (num_of_Z 0, num_of_Z 2).
Proof. split; reflexivity. Qed.

(* ===================================================================== *)
(** ** The plot state store *)
(* ===================================================================== *)

Import Plot.

(** Unfold the monad down to functions on pages. *)
Ltac run_m :=
  unfold call, mbind, mret, M_bind, M_ret, bind, ret, throw, get, modify, lift;
  simpl.

#[local] Arguments calculateMultiXDomain : simpl never.
#[local] Arguments calculateMultiYDomain : simpl never.
#[local] Arguments lines : simpl never.

Lemma bind_returned {A B} (m : M A) (k : A → M B) p a p' :
  m p = (Returned a, p') → (m ≫= k) p = k a p'.
Proof. intros H. unfold mbind, M_bind, bind. by rewrite H. Qed.

Lemma bind_threw {A B} (m : M A) (k : A → M B) p e p' :
  m p = (Threw e, p') → (m ≫= k) p = (Threw e, p').
Proof. intros H. unfold mbind, M_bind, bind. by rewrite H. Qed.

(** [send] on an open socket appends to what was sent. *)
Lemma socket_send_open message p :
  readyState (socket p) = OPEN →
  socket_send message p =
  (Returned tt,
   with_socket (mkWebSocket OPEN (open_listeners (socket p))
                            (sent (socket p) ++ [message])) p).
Proof.
  intros H. unfold socket_send. run_m. rewrite H.
  repeat case_decide; done.
Qed.

(** [send] never touches anything but the list of sent messages. *)
Lemma socket_send_frame message p r p' :
  socket_send message p = (r, p') →
  p' = p ∨
  p' = with_socket (mkWebSocket (readyState (socket p))
         (open_listeners (socket p)) (sent (socket p) ++ [message])) p.
Proof.
  unfold socket_send. run_m. repeat case_decide; intros [= _ <-]; auto.
Qed.

Lemma clear_all_line_data_runs p :
  clear_all_line_data p =
  (Returned tt,
   mkPage (props_plot_id p) (JArray []) (socket p) (lineID p)
          (num_of_Z 0, num_of_Z 1) (num_of_Z 0, num_of_Z 1) (jobs p)).
Proof. reflexivity. Qed.

(** C6: [clear()] is idempotent: applied once or any number of consecutive
    times from any state it yields the same result, with an empty
    collection and both domains equal to [0, 1]. *)
Theorem clear_all_line_data_idempotent (p : Page) (n : nat) :
  Nat.iter (S n) (call clear_all_line_data) p = call clear_all_line_data p ∧
  state_multilineData (call clear_all_line_data p) = JArray [] ∧
  multilineXDomain (call clear_all_line_data p) = (num_of_Z 0, num_of_Z 1) ∧
  multilineYDomain (call clear_all_line_data p) = (num_of_Z 0, num_of_Z 1).
Proof.
  split; [|done].
  induction n as [|n IH]; [done|].
  rewrite Nat.iter_succ, IH. reflexivity.
Qed.

(* --------------------------------------------------------------------- *)
(** *** The three store operations on pages *)

(** [plot_multiline_data] on a message whose [data] is a non-empty array of
    line objects: the collection is replaced and both domains are those of
    the new collection; nothing else changes. *)
Lemma plot_multiline_data_lines (m : Message) ds p :
  get_prop m "data" = lines ds → ds ≠ [] →
  ∃ dx dy,
    calculateMultiXDomain (lines ds) = Normal dx ∧
    calculateMultiYDomain (lines ds) = Normal dy ∧
    plot_multiline_data m p =
    (Returned tt,
     mkPage (props_plot_id p) (lines ds) (socket p) (lineID p) dx dy (jobs p)).
Proof.
  intros Hdata Hne.
  destruct (calculateMultiDomain_total x ds Hne) as [dx Hx].
  destruct (calculateMultiDomain_total y ds Hne) as [dy Hy].
  fold calculateMultiXDomain in Hx. fold calculateMultiYDomain in Hy.
  exists dx, dy. split_and!; [done..|].
  unfold plot_multiline_data. rewrite Hdata.
  run_m. rewrite Hx. simpl. rewrite Hy. reflexivity.
Qed.

(** When the x domain of [message.data] cannot be computed the handler
    throws before it has changed anything. *)
Lemma plot_multiline_data_throws (m : Message) p :
  calculateMultiXDomain (get_prop m "data") = TypeError →
  plot_multiline_data m p = (Threw ThrownTypeError, p).
Proof. intros H. unfold plot_multiline_data. run_m. rewrite H. reflexivity. Qed.

(** [plot_new_line_data] on a collection of line objects and a message
    whose [data] is a line object: the series is appended and both domains
    are those of the extended collection; nothing else changes. *)
Lemma plot_new_line_data_lines (m : Message) S ds p :
  state_multilineData p = lines ds → get_prop m "data" = JLine S →
  ∃ dx dy,
    calculateMultiXDomain (lines (ds ++ [S])) = Normal dx ∧
    calculateMultiYDomain (lines (ds ++ [S])) = Normal dy ∧
    plot_new_line_data m p =
    (Returned tt,
     mkPage (props_plot_id p) (lines (ds ++ [S])) (socket p) (lineID p)
            dx dy (jobs p)).
Proof.
  intros Hst Hdata.
  assert (ds ++ [S] ≠ []) as Hne by (by destruct ds).
  destruct (calculateMultiDomain_total x _ Hne) as [dx Hx].
  destruct (calculateMultiDomain_total y _ Hne) as [dy Hy].
  fold calculateMultiXDomain in Hx. fold calculateMultiYDomain in Hy.
  exists dx, dy. split_and!; [done..|].
  unfold plot_new_line_data, push_multilineData. rewrite Hdata.
  run_m. rewrite Hst. unfold lines at 1. simpl.
  assert (JArray ((JLine <$> ds) ++ [JLine S]) = lines (ds ++ [S])) as ->.
  { unfold lines. by rewrite fmap_app. }
  rewrite Hx. simpl. rewrite Hy. reflexivity.
Qed.

(* --------------------------------------------------------------------- *)
(** *** Dispatch on the message tag *)

Lemma onmessage_multiline (m : Message) p :
  get_prop m "type" = JString "multiline data" →
  onmessage m p =
  (plot_multiline_data m;; socket_send (ready_status (props_plot_id p))) p.
Proof. intros H. unfold onmessage. run_m. rewrite H. reflexivity. Qed.

Lemma onmessage_new_line (m : Message) p :
  get_prop m "type" = JString "new line data" →
  onmessage m p =
  (plot_new_line_data m;; socket_send (ready_status (props_plot_id p))) p.
Proof. intros H. unfold onmessage. run_m. rewrite H. reflexivity. Qed.

Lemma onmessage_clear (m : Message) p :
  get_prop m "type" = JString "clear plots" →
  onmessage m p =
  (clear_all_line_data;; socket_send (ready_status (props_plot_id p))) p.
Proof. intros H. unfold onmessage. run_m. rewrite H. reflexivity. Qed.

(** Any other tag: nothing is changed and nothing is sent. *)
Lemma onmessage_unrecognized (m : Message) p :
  get_prop m "type" ≠ JString "multiline data" →
  get_prop m "type" ≠ JString "new line data" →
  get_prop m "type" ≠ JString "clear plots" →
  onmessage m p = (Returned tt, p).
Proof.
  intros H1 H2 H3. unfold onmessage. run_m.
  destruct (get_prop m "type") as [|t| | |]; try done.
  repeat case_decide; congruence.
Qed.

(* --------------------------------------------------------------------- *)
(** *** Appending a series *)

(** The append scenario of the design document. *)
Example scenario_append :
  let q := call (onmessage msg_new_line_C) page_AB in
  state_multilineData q = lines [seriesA; seriesB; seriesC] ∧
  multilineXDomain q = (num_of_Z 0, num_of_Z 5) ∧
  multilineYDomain q = (num_of_Z 0, num_of_Z 5).
Proof. by vm_compute. Qed.

(* --------------------------------------------------------------------- *)
(** *** Acknowledgements *)

(** On an open socket, a recognized message whose payload is well formed is
    applied and then acknowledged by one ready status. *)
Lemma onmessage_multiline_acks (m : Message) ds p :
  get_prop m "type" = JString "multiline data" →
  get_prop m "data" = lines ds → ds ≠ [] →
  readyState (socket p) = OPEN →
  ∃ dx dy,
    calculateMultiXDomain (lines ds) = Normal dx ∧
    calculateMultiYDomain (lines ds) = Normal dy ∧
    onmessage m p =
    (Returned tt,
     mkPage (props_plot_id p) (lines ds)
       (mkWebSocket OPEN (open_listeners (socket p))
          (sent (socket p) ++ [ready_status (props_plot_id p)]))
       (lineID p) dx dy (jobs p)).
Proof.
  intros Htype Hdata Hne Hopen.
  destruct (plot_multiline_data_lines m ds p Hdata Hne)
    as (dx & dy & Hx & Hy & Hrun).
  exists dx, dy. split_and!; [done..|].
  rewrite onmessage_multiline by done.
  erewrite bind_returned by exact Hrun.
  by rewrite socket_send_open.
Qed.

Lemma onmessage_new_line_acks (m : Message) s ds p :
  get_prop m "type" = JString "new line data" →
  get_prop m "data" = JLine s →
  state_multilineData p = lines ds →
  readyState (socket p) = OPEN →
  ∃ dx dy,
    calculateMultiXDomain (lines (ds ++ [s])) = Normal dx ∧
    calculateMultiYDomain (lines (ds ++ [s])) = Normal dy ∧
    onmessage m p =
    (Returned tt,
     mkPage (props_plot_id p) (lines (ds ++ [s]))
       (mkWebSocket OPEN (open_listeners (socket p))
          (sent (socket p) ++ [ready_status (props_plot_id p)]))
       (lineID p) dx dy (jobs p)).
Proof.
  intros Htype Hdata Hst Hopen.
  destruct (plot_new_line_data_lines m s ds p Hst Hdata)
    as (dx & dy & Hx & Hy & Hrun).
  exists dx, dy. split_and!; [done..|].
  rewrite onmessage_new_line by done.
  erewrite bind_returned by exact Hrun.
  by rewrite socket_send_open.
Qed.

Lemma onmessage_clear_acks (m : Message) p :
  get_prop m "type" = JString "clear plots" →
  readyState (socket p) = OPEN →
  onmessage m p =
  (Returned tt,
   mkPage (props_plot_id p) (JArray [])
     (mkWebSocket OPEN (open_listeners (socket p))
        (sent (socket p) ++ [ready_status (props_plot_id p)]))
     (lineID p) (num_of_Z 0, num_of_Z 1) (num_of_Z 0, num_of_Z 1) (jobs p)).
Proof.
  intros Htype Hopen.
  rewrite onmessage_clear by done.
  erewrite bind_returned by apply clear_all_line_data_runs.
  by rewrite socket_send_open.
Qed.

(** C1 (the code departs from it): a message tagged "multiline data" whose
    series list is empty is a recognized message, yet its handler throws
    while computing the x domain: the store is not changed and no ready
    status is sent, here on any page and in particular on an open one. *)
Theorem onmessage_empty_multiline_not_acknowledged (p : Page) :
  get_prop msg_multiline_empty "type" = JString "multiline data" ∧
  get_prop msg_multiline_empty "data" = JArray [] ∧
  onmessage msg_multiline_empty p = (Threw ThrownTypeError, p) ∧
  sent (socket (call (onmessage msg_multiline_empty) p)) = sent (socket p).
Proof.
  assert (onmessage msg_multiline_empty p = (Threw ThrownTypeError, p)) as H.
  { rewrite onmessage_multiline by reflexivity.
    erewrite bind_threw; [done|].
    by apply plot_multiline_data_throws. }
  split_and!; [reflexivity | reflexivity | done | ].
  unfold call. by rewrite H.
Qed.

(** The same as an event on the opened, empty page: the page is left as it
    was, with the single ready status of [onopen] as all it ever sent. *)
Example step_empty_multiline :
  step (SocketMessage msg_multiline_empty) page_open = Some page_open.
Proof. reflexivity. Qed.

(* --------------------------------------------------------------------- *)
(** *** What a message handler can change *)

Lemma calculateMultiXDomain_Normal v dom :
  calculateMultiXDomain v = Normal dom → ∃ e l, v = JArray (e :: l).
Proof.
  unfold calculateMultiXDomain, calculateMultiDomain.
  destruct v as [| | |[|e l]|]; try done. eauto.
Qed.

Lemma plot_multiline_data_effect (m : Message) p r p' :
  plot_multiline_data m p = (r, p') →
  props_plot_id p' = props_plot_id p ∧ socket p' = socket p ∧
  lineID p' = lineID p ∧ jobs p' = jobs p ∧
  (store_inv p → store_inv p').
Proof.
  unfold plot_multiline_data. run_m.
  destruct (calculateMultiXDomain (get_prop m "data")) as [dx|] eqn:Hx; simpl.
  - destruct (calculateMultiYDomain (get_prop m "data")) as [dy|] eqn:Hy; simpl.
    + intros [= <- <-]. simpl. split_and!; [done..|]. intros _.
      apply calculateMultiXDomain_Normal in Hx as (e & l & ->).
      exists (e :: l). done.
    + intros [= <- <-]. simpl. split_and!; [done..|]. done.
  - intros [= <- <-]. done.
Qed.

Lemma plot_new_line_data_effect (m : Message) p r p' :
  plot_new_line_data m p = (r, p') →
  props_plot_id p' = props_plot_id p ∧ socket p' = socket p ∧
  lineID p' = lineID p ∧ jobs p' = jobs p ∧
  (store_inv p → store_inv p').
Proof.
  unfold plot_new_line_data, push_multilineData. run_m.
  destruct (state_multilineData p) as [| | |l|] eqn:Hst; simpl;
    try (intros [= <- <-]; done).
  set (l' := l ++ [get_prop m "data"]).
  assert (l' ≠ []) as Hne by (subst l'; by destruct l).
  destruct (calculateMultiXDomain (JArray l')) as [dx|]; simpl.
  - destruct (calculateMultiYDomain (JArray l')) as [dy|]; simpl;
      intros [= <- <-]; simpl; (split_and!; [done..|]);
      intros _; by exists l'.
  - intros [= <- <-]; simpl. split_and!; [done..|]. intros _. by exists l'.
Qed.

Lemma clear_all_line_data_effect p r p' :
  clear_all_line_data p = (r, p') →
  props_plot_id p' = props_plot_id p ∧ socket p' = socket p ∧
  lineID p' = lineID p ∧ jobs p' = jobs p ∧
  (store_inv p → store_inv p').
Proof.
  rewrite clear_all_line_data_runs. intros [= <- <-]. simpl.
  split_and!; [done..|]. intros _. exists []. simpl. auto.
Qed.

Lemma store_inv_with_socket s p : store_inv p → store_inv (with_socket s p).
Proof. done. Qed.

(** A handler followed by the acknowledgement. *)
Lemma then_ack_effect (h : M unit) p r p' :
  (∀ r1 p1, h p = (r1, p1) →
     props_plot_id p1 = props_plot_id p ∧ socket p1 = socket p ∧
     lineID p1 = lineID p ∧ jobs p1 = jobs p ∧
     (store_inv p → store_inv p1)) →
  (h;; socket_send (ready_status (props_plot_id p))) p = (r, p') →
  props_plot_id p' = props_plot_id p ∧ lineID p' = lineID p ∧
  jobs p' = jobs p ∧
  readyState (socket p') = readyState (socket p) ∧
  open_listeners (socket p') = open_listeners (socket p) ∧
  (sent (socket p') = sent (socket p) ∨
   sent (socket p') = sent (socket p) ++ [ready_status (props_plot_id p)]) ∧
  (store_inv p → store_inv p').
Proof.
  intros Hh. destruct (h p) as [[[]|e] p1] eqn:Hrun.
  - destruct (Hh _ _ eq_refl) as (Hid & Hsock & Hline & Hjobs & Hinv).
    erewrite bind_returned by exact Hrun. intros Hsend.
    apply socket_send_frame in Hsend as [->| ->]; simpl;
      rewrite ?Hsock; split_and!; auto.
  - destruct (Hh _ _ eq_refl) as (Hid & Hsock & Hline & Hjobs & Hinv).
    erewrite bind_threw by exact Hrun. intros [= <- <-].
    rewrite Hsock. split_and!; auto.
Qed.

(** Whatever the message, [onmessage] leaves the line counter, the job
    queue and the socket's state and listeners alone, sends at most one
    ready status, and keeps the store invariant. *)
Lemma onmessage_effect (m : Message) p r p' :
  onmessage m p = (r, p') →
  props_plot_id p' = props_plot_id p ∧ lineID p' = lineID p ∧
  jobs p' = jobs p ∧
  readyState (socket p') = readyState (socket p) ∧
  open_listeners (socket p') = open_listeners (socket p) ∧
  (sent (socket p') = sent (socket p) ∨
   sent (socket p') = sent (socket p) ++ [ready_status (props_plot_id p)]) ∧
  (store_inv p → store_inv p').
Proof.
  assert (get_prop m "type" = JString "multiline data" ∨
          get_prop m "type" = JString "new line data" ∨
          get_prop m "type" = JString "clear plots" ∨
          (get_prop m "type" ≠ JString "multiline data" ∧
           get_prop m "type" ≠ JString "new line data" ∧
           get_prop m "type" ≠ JString "clear plots")) as Htag.
  { destruct (get_prop m "type") as [|t| | |]; try (by repeat right).
    destruct (decide (t = "multiline data")) as [->|]; [by left|].
    destruct (decide (t = "new line data")) as [->|]; [by right; left|].
    destruct (decide (t = "clear plots")) as [->|]; [by right; right; left|].
    repeat right. split_and!; congruence. }
  destruct Htag as [H|[H|[H|(H1 & H2 & H3)]]].
  - rewrite onmessage_multiline by done. apply then_ack_effect.
    intros r1 p1. apply plot_multiline_data_effect.
  - rewrite onmessage_new_line by done. apply then_ack_effect.
    intros r1 p1. apply plot_new_line_data_effect.
  - rewrite onmessage_clear by done. apply then_ack_effect.
    intros r1 p1. apply clear_all_line_data_effect.
  - rewrite onmessage_unrecognized by done. intros [= <- <-].
    split_and!; auto.
Qed.

(* ===================================================================== *)
(** ** The event loop *)
(* ===================================================================== *)

Lemma alter_last {A} (f : A → A) (l : list A) a :
  alter f (length l) (l ++ [a]) = l ++ [f a].
Proof.
  rewrite <- (Nat.add_0_r (length l)) at 1. by rewrite alter_app_r.
Qed.

Lemma with_jobs_nil p : jobs p = [] → with_jobs [] p = p.
Proof. destruct p; simpl. by intros ->. Qed.

Lemma having_sent_nil p : having_sent [] p = p.
Proof. destruct p as [? ? [] ? ? ? ?]. unfold having_sent. simpl. by rewrite app_nil_r. Qed.

Lemma having_sent_app ms1 ms2 p :
  having_sent ms2 (having_sent ms1 p) = having_sent (ms1 ++ ms2) p.
Proof. unfold having_sent. simpl. by rewrite app_assoc. Qed.

(** The rest of [sendNewLineRequest] on an open socket: one request is
    sent, and that is all. *)
Lemma resume_open k p :
  readyState (socket p) = OPEN →
  resume k p = (Returned tt, having_sent [request_of (props_plot_id p) k] p).
Proof.
  intros Hopen. destruct k as [n]. unfold resume.
  erewrite bind_returned by reflexivity.
  rewrite socket_send_open by done. unfold having_sent. by rewrite Hopen.
Qed.

(** The rest of [sendNewLineRequest] does not suspend again: whatever the
    socket's state, it registers no listener and queues no job. *)
Lemma resume_jobs k p :
  jobs (call (resume k) p) = jobs p ∧
  open_listeners (socket (call (resume k) p)) = open_listeners (socket p) ∧
  readyState (socket (call (resume k) p)) = readyState (socket p).
Proof.
  destruct k as [n]. unfold call, resume.
  erewrite bind_returned by reflexivity.
  destruct (socket_send _ p) as [r p'] eqn:Hsend.
  apply socket_send_frame in Hsend as [->| ->]; done.
Qed.

Lemma foldl_resume_open ks : ∀ p,
  readyState (socket p) = OPEN →
  foldl (λ q k, call (resume k) q) p ks =
  having_sent (request_of (props_plot_id p) <$> ks) p.
Proof.
  induction ks as [|k ks IH]; intros p Hopen; simpl.
  - by rewrite having_sent_nil.
  - unfold call at 2. rewrite resume_open by done. simpl.
    rewrite IH by done. by rewrite having_sent_app.
Qed.

(** On an open socket the queued continuations each send their request, in
    order, and the queue is left empty. *)
Lemma run_jobs_open p :
  readyState (socket p) = OPEN →
  run_jobs p =
  with_jobs [] (having_sent (request_of (props_plot_id p) <$> jobs p) p).
Proof.
  intros Hopen. unfold run_jobs. by rewrite foldl_resume_open.
Qed.

Lemma run_jobs_nil p : jobs p = [] → run_jobs p = p.
Proof. intros H. unfold run_jobs. rewrite H. simpl. by apply with_jobs_nil. Qed.

(** A message task is its handler: the handler queues no job. *)
Lemma task_onmessage (m : Message) p :
  jobs p = [] → task (onmessage m) p = call (onmessage m) p.
Proof.
  intros Hjobs. unfold task. apply run_jobs_nil.
  unfold call. destruct (onmessage m p) as [r p'] eqn:Hrun.
  apply onmessage_effect in Hrun as (_ & _ & Hj & _). simpl. congruence.
Qed.

(** The add-line action on an open socket. *)
Lemma task_handleAddLine_open p :
  readyState (socket p) = OPEN → jobs p = [] →
  task handleAddLine p =
  with_lineID (lineID p + 1)
    (having_sent [new_line_request (props_plot_id p) (lineID p + 1)] p).
Proof.
  intros Hopen Hjobs. unfold task.
  assert (call handleAddLine p =
          with_jobs [AfterOpenSocket (lineID p + 1)]
            (with_lineID (lineID p + 1) p)) as ->.
  { unfold call, handleAddLine, sendNewLineRequest, waitForOpenSocket, await.
    run_m. case_decide; [done|]. simpl. by rewrite Hjobs. }
  rewrite run_jobs_open by done.
  destruct p; simpl in *; by subst.
Qed.

(** The add-line action while the socket is not open. *)
Lemma task_handleAddLine_not_open p :
  readyState (socket p) ≠ OPEN → jobs p = [] →
  task handleAddLine p =
  with_lineID (lineID p + 1)
    (with_socket
       (mkWebSocket (readyState (socket p))
          (open_listeners (socket p) ++ [[AfterOpenSocket (lineID p + 1)]])
          (sent (socket p))) p).
Proof.
  intros Hopen Hjobs. unfold task.
  assert (call handleAddLine p =
          with_lineID (lineID p + 1)
            (with_socket
               (mkWebSocket (readyState (socket p))
                  (open_listeners (socket p) ++ [[AfterOpenSocket (lineID p + 1)]])
                  (sent (socket p))) p)) as ->.
  { unfold call, handleAddLine, sendNewLineRequest, waitForOpenSocket, await.
    run_m. case_decide; [|done]. simpl. by rewrite alter_last. }
  by apply run_jobs_nil.
Qed.

Lemma foldl_open_listener kss : ∀ p,
  readyState (socket p) = OPEN → jobs p = [] →
  foldl (λ q ks, task (open_listener ks) q) p kss =
  having_sent (request_of (props_plot_id p) <$> concat kss) p.
Proof.
  induction kss as [|ks kss IH]; intros p Hopen Hjobs; simpl.
  - by rewrite having_sent_nil.
  - assert (task (open_listener ks) p =
            having_sent (request_of (props_plot_id p) <$> ks) p) as ->.
    { unfold task, open_listener. run_m. rewrite run_jobs_open by done.
      simpl. rewrite Hjobs. simpl. destruct p; simpl in *; by subst. }
    rewrite IH by done. by rewrite having_sent_app, fmap_app.
Qed.

(** The socket opens: the ready status of [onopen] goes out first, then the
    request of every caller that was waiting, in the order in which they
    registered. *)
Lemma dispatch_open_connecting p :
  jobs p = [] →
  dispatch_open p =
  with_socket
    (mkWebSocket OPEN (open_listeners (socket p))
       (sent (socket p) ++
        ready_status (props_plot_id p) ::
        (request_of (props_plot_id p) <$> concat (open_listeners (socket p))))) p.
Proof.
  intros Hjobs. unfold dispatch_open.
  set (p1 := with_socket _ p).
  assert (task onopen p1 = having_sent [ready_status (props_plot_id p)] p1) as ->.
  { unfold task, onopen. unfold call.
    erewrite bind_returned by reflexivity.
    rewrite socket_send_open by done. simpl.
    apply run_jobs_nil. done. }
  rewrite foldl_open_listener by done.
  rewrite having_sent_app. reflexivity.
Qed.

(* --------------------------------------------------------------------- *)
(** *** Requesting a new line *)

(** C9: [sendNewLineRequest(id)] suspends until the socket is open.  If it
    is open already the promise is resolved at once, no listener is
    registered, and the caller, queued as a job, has sent its one request
    [{plot_id, type: 1, params: {line_id}}] when the task ends.  Otherwise
    the call registers one listener on the open event, with the caller as
    the single continuation waiting on it, and sends nothing; when the
    socket then opens, the request goes out exactly once, after those of
    the callers that were already waiting.  The resumed caller does not
    suspend again: it registers no listener and queues no job. *)
Theorem sendNewLineRequest_waits_then_sends_once (p : Page) (nextLineID : Z) :
  jobs p = [] →
  (readyState (socket p) = OPEN →
   call (sendNewLineRequest nextLineID) p =
     with_jobs [AfterOpenSocket nextLineID] p ∧
   task (sendNewLineRequest nextLineID) p =
     having_sent
       [mkPlotMessage (props_plot_id p) 1 (NewLineParams (String_ nextLineID))]
       p) ∧
  (readyState (socket p) ≠ OPEN →
   task (sendNewLineRequest nextLineID) p =
     with_socket
       (mkWebSocket (readyState (socket p))
          (open_listeners (socket p) ++ [[AfterOpenSocket nextLineID]])
          (sent (socket p))) p) ∧
  (readyState (socket p) = CONNECTING →
   dispatch_open (task (sendNewLineRequest nextLineID) p) =
     with_socket
       (mkWebSocket OPEN
          (open_listeners (socket p) ++ [[AfterOpenSocket nextLineID]])
          (sent (socket p) ++
           ready_status (props_plot_id p) ::
           (request_of (props_plot_id p) <$> concat (open_listeners (socket p)))
           ++ [mkPlotMessage (props_plot_id p) 1
                 (NewLineParams (String_ nextLineID))])) p) ∧
  (∀ q, jobs (call (resume (AfterOpenSocket nextLineID)) q) = jobs q ∧
        open_listeners (socket (call (resume (AfterOpenSocket nextLineID)) q))
        = open_listeners (socket q)).
Proof.
  intros Hjobs.
  assert (readyState (socket p) ≠ OPEN →
          task (sendNewLineRequest nextLineID) p =
          with_socket
            (mkWebSocket (readyState (socket p))
               (open_listeners (socket p) ++ [[AfterOpenSocket nextLineID]])
               (sent (socket p))) p) as Hwait.
  { intros Hno. unfold task.
    assert (call (sendNewLineRequest nextLineID) p =
            with_socket
              (mkWebSocket (readyState (socket p))
                 (open_listeners (socket p) ++ [[AfterOpenSocket nextLineID]])
                 (sent (socket p))) p) as ->.
    { unfold call, sendNewLineRequest, waitForOpenSocket, await. run_m.
      case_decide; [|done]. simpl. by rewrite alter_last. }
    by apply run_jobs_nil. }
  split_and!.
  - intros Hopen.
    assert (call (sendNewLineRequest nextLineID) p =
            with_jobs [AfterOpenSocket nextLineID] p) as Hcall.
    { unfold call, sendNewLineRequest, waitForOpenSocket, await. run_m.
      case_decide; [done|]. simpl. by rewrite Hjobs. }
    split; [done|]. unfold task. rewrite Hcall.
    rewrite run_jobs_open by done.
    destruct p; simpl in *; by subst.
  - exact Hwait.
  - intros Hconn. rewrite Hwait by (rewrite Hconn; done).
    rewrite dispatch_open_connecting by done. simpl.
    rewrite concat_app, fmap_app. reflexivity.
  - intros q. destruct (resume_jobs (AfterOpenSocket nextLineID) q) as (? & ? & _).
    done.
Qed.

Lemma sendNewLineRequest_waits_then_sends_once_witness :
  task (sendNewLineRequest 4) page_open =
    having_sent [mkPlotMessage "plot_0" 1 (NewLineParams "4")] page_open ∧
  dispatch_open (task (sendNewLineRequest 5) page_connecting) =
    with_socket
      (mkWebSocket OPEN [[AfterOpenSocket 4]; [AfterOpenSocket 5]]
         [ready_status "plot_0";
          mkPlotMessage "plot_0" 1 (NewLineParams "4");
          mkPlotMessage "plot_0" 1 (NewLineParams "5")]) page_connecting.
Proof.
  split.
  - destruct (sendNewLineRequest_waits_then_sends_once page_open 4 eq_refl)
      as (Hopen & _).
    apply (Hopen eq_refl).
  - destruct (sendNewLineRequest_waits_then_sends_once page_connecting 5 eq_refl)
      as (_ & Hwait & Hconn & _).
    pose proof (Hwait ltac:(discriminate)) as _.
    apply (Hconn eq_refl).
Defined.

(* --------------------------------------------------------------------- *)
(** *** The line counter along a run *)

Lemma add_line_requests_app ms1 ms2 :
  add_line_requests (ms1 ++ ms2) = add_line_requests ms1 ++ add_line_requests ms2.
Proof. apply filter_app. Qed.

Lemma add_line_requests_new_line id (l : list Z) :
  add_line_requests (new_line_request id <$> l) = new_line_request id <$> l.
Proof.
  induction l as [|k l IH]; [done|].
  rewrite fmap_cons. unfold add_line_requests in *.
  rewrite filter_cons_True by done. by rewrite IH.
Qed.

Lemma request_of_AfterOpenSocket id (l : list Z) :
  request_of id <$> concat ((λ k, [AfterOpenSocket k]) <$> l)
  = new_line_request id <$> l.
Proof.
  induction l as [|k l IH]; [done|].
  rewrite (fmap_cons _ k l), concat_cons, fmap_app, IH. done.
Qed.

Lemma mounted_line_inv id : line_inv id 0 (mounted id).
Proof. unfold line_inv. simpl. split_and!; try done. by exists 0%nat. Qed.

(** One event keeps the invariant, with one more activation when the event
    is the add-line action. *)
Lemma step_line_inv id n e p p' :
  line_inv id n p → step e p = Some p' →
  line_inv id (n + clicks [e]) p'.
Proof.
  intros (Hid & Hline & Hjobs & Hconn & Hopen & (k & Hk & Hsome)) Hstep.
  destruct e as [|m| |]; simpl in Hstep; simpl clicks;
    rewrite ?Nat.add_0_r.
  - (* the socket opens *)
    case_decide as Hrs; [|done]. injection Hstep as <-.
    rewrite dispatch_open_connecting by done.
    destruct (Hconn Hrs) as [Hnone Hls].
    assert (add_line_requests
              (sent (socket p) ++
               ready_status (props_plot_id p) ::
               (request_of (props_plot_id p) <$>
                concat (open_listeners (socket p))))
            = new_line_request id <$> seqZ 4 (Z.of_nat n)) as Hall.
    { rewrite add_line_requests_app, Hnone, Hls, Hid. simpl.
      unfold add_line_requests at 1. rewrite filter_cons_False by done.
      rewrite request_of_AfterOpenSocket. apply add_line_requests_new_line. }
    unfold line_inv. simpl. split_and!; [done..| | done | by exists n].
    intros [=].
  - (* a message arrives *)
    case_decide as Hrs; [|done]. injection Hstep as <-.
    rewrite task_onmessage by done. unfold call.
    destruct (onmessage m p) as [r q] eqn:Hrun. simpl.
    apply onmessage_effect in Hrun
      as (Hid' & Hline' & Hjobs' & Hrs' & Hls' & Hsent & _).
    assert (add_line_requests (sent (socket q)) =
            add_line_requests (sent (socket p))) as Hreq.
    { destruct Hsent as [->| ->]; [done|].
      rewrite add_line_requests_app. simpl.
      unfold add_line_requests at 2. rewrite filter_cons_False by done.
      simpl. by rewrite app_nil_r. }
    unfold line_inv. rewrite Hid', Hline', Hjobs', Hrs', Hls', Hreq.
    split_and!; [done..| | done | by exists k].
    intros Hc. rewrite Hrs in Hc. done.
  - (* the socket closes *)
    case_decide as Hrs; [done|]. injection Hstep as <-.
    unfold line_inv, dispatch_close. simpl.
    split_and!; [done.. | by exists k].
  - (* the add-line action *)
    injection Hstep as <-.
    replace (n + 1)%nat with (S n) by lia.
    destruct (decide (readyState (socket p) = OPEN)) as [Hrs|Hrs].
    + rewrite task_handleAddLine_open by done.
      assert (add_line_requests
                (sent (socket p) ++
                 [new_line_request (props_plot_id p) (lineID p + 1)])
              = new_line_request id <$> seqZ 4 (Z.of_nat (S n))) as Hall.
      { rewrite seqZ_S, add_line_requests_app, (Hopen Hrs), fmap_app.
        f_equal. rewrite Hid, Hline. simpl.
        replace (3 + Z.of_nat n + 1) with (4 + Z.of_nat n) by lia. done. }
      unfold line_inv.
      cbn [with_lineID having_sent with_socket props_plot_id lineID jobs
           socket readyState sent open_listeners].
      split_and!; [done | lia | done | | done | by exists (S n)].
      intros Hc. rewrite Hrs in Hc. done.
    + rewrite task_handleAddLine_not_open by done.
      unfold line_inv. rewrite seqZ_S.
      cbn [with_lineID having_sent with_socket props_plot_id lineID jobs
           socket readyState sent open_listeners].
      split_and!; [done | lia | done | | done | exists k; split; [lia|done]].
      intros Hc. destruct (Hconn Hc) as [Hnone Hls].
      split; [done|]. rewrite Hls, fmap_app, Hline. simpl.
      replace (3 + Z.of_nat n + 1) with (4 + Z.of_nat n) by lia. done.
Qed.

Lemma run_line_inv id events : ∀ n p p',
  line_inv id n p → run events p = Some p' →
  line_inv id (n + clicks events) p'.
Proof.
  induction events as [|e events IH]; intros n p p' Hinv Hrun; simpl in Hrun.
  - injection Hrun as <-. simpl. by rewrite Nat.add_0_r.
  - destruct (step e p) as [q|] eqn:Hstep; [|done].
    pose proof (step_line_inv _ _ _ _ _ Hinv Hstep) as Hq.
    pose proof (IH _ _ _ Hq Hrun) as Hp'.
    replace (n + clicks (e :: events))%nat
      with (n + clicks [e] + clicks events)%nat; [done|].
    destruct e; simpl; lia.
Qed.

(** On a closed socket nothing but the add-line action can happen, and
    nothing is sent any more. *)
Lemma run_closed events : ∀ p p',
  readyState (socket p) = CLOSED → jobs p = [] →
  run events p = Some p' →
  sent (socket p') = sent (socket p) ∧ readyState (socket p') = CLOSED.
Proof.
  induction events as [|e events IH]; intros p p' Hrs Hjobs Hrun;
    simpl in Hrun.
  - by injection Hrun as <-.
  - destruct e as [|m| |]; simpl in Hrun.
    + case_decide as Hc; [|done]. rewrite Hrs in Hc. done.
    + case_decide as Hc; [|done]. rewrite Hrs in Hc. done.
    + case_decide; done.
    + rewrite task_handleAddLine_not_open in Hrun
        by (try rewrite Hrs; done).
      by apply IH in Hrun as [-> ->].
Qed.

(** C10 (as stated) fails: on a socket that closed before it opened, an
    activation of the add-line action increments the counter to 4 and
    registers the caller, but sends no request, and no later event can
    make it send one. *)
Lemma handleAddLine_closed_counterexample :
  run [SocketClose; AddLineClick] (mounted "plot_0") = Some page_closed_waiting ∧
  clicks [SocketClose; AddLineClick] = 1%nat ∧
  lineID page_closed_waiting = 4 ∧
  add_line_requests (sent (socket page_closed_waiting)) = [] ∧
  (∀ events p', run events page_closed_waiting = Some p' →
                add_line_requests (sent (socket p')) = []).
Proof.
  split_and!; [reflexivity.. | ].
  intros events p' Hrun.
  apply run_closed in Hrun as [-> _]; reflexivity.
Qed.

(** C10 (as amended): each activation of the add-line action increments an
    internal counter that starts at 3 and then requests a line for the new
    value.  On an open socket the activation sends exactly one add-line
    request, whose [line_id] is the decimal string of the incremented
    counter.  While the socket is still connecting the activation sends
    nothing and its caller waits; the waiting callers are served, one
    request each and in order, when the socket opens.  On a socket that is
    not open the activation sends nothing, and on a closed socket nothing
    is ever sent again.  In every state the requests sent so far are, in
    order, those for 4, 5, ... up to some integer, at most one per
    activation and exactly one per activation while the socket is open: the
    first request carries "4" and successive requests carry consecutive
    increasing integers. *)
Theorem handleAddLine_requests_consecutive (id : string)
    (events : list Event) (p : Page) :
  run events (mounted id) = Some p →
  lineID (mounted id) = 3 ∧
  lineID p = 3 + Z.of_nat (clicks events) ∧
  (readyState (socket p) = OPEN →
   add_line_requests (sent (socket p)) =
     (λ k, mkPlotMessage id 1 (NewLineParams (String_ k))) <$>
       seqZ 4 (Z.of_nat (clicks events)) ∧
   length (add_line_requests (sent (socket p))) = clicks events ∧
   (∀ (i : nat) m, add_line_requests (sent (socket p)) !! i = Some m →
      m = mkPlotMessage id 1 (NewLineParams (String_ (4 + Z.of_nat i)))) ∧
   step AddLineClick p =
     Some (with_lineID (lineID p + 1)
             (having_sent
                [mkPlotMessage id 1 (NewLineParams (String_ (lineID p + 1)))]
                p))) ∧
  (readyState (socket p) = CONNECTING →
   add_line_requests (sent (socket p)) = [] ∧
   open_listeners (socket p) =
     (λ k, [AfterOpenSocket k]) <$> seqZ 4 (Z.of_nat (clicks events)) ∧
   add_line_requests (sent (socket (dispatch_open p))) =
     (λ k, mkPlotMessage id 1 (NewLineParams (String_ k))) <$>
       seqZ 4 (Z.of_nat (clicks events))) ∧
  (readyState (socket p) ≠ OPEN →
   step AddLineClick p =
     Some (with_lineID (lineID p + 1)
             (with_socket
                (mkWebSocket (readyState (socket p))
                   (open_listeners (socket p) ++
                    [[AfterOpenSocket (lineID p + 1)]])
                   (sent (socket p))) p))) ∧
  (readyState (socket p) = CLOSED →
   ∀ events' p', run events' p = Some p' →
                 sent (socket p') = sent (socket p)) ∧
  (∃ k : nat, (k ≤ clicks events)%nat ∧
   add_line_requests (sent (socket p)) =
     (λ k, mkPlotMessage id 1 (NewLineParams (String_ k))) <$>
       seqZ 4 (Z.of_nat k)) ∧
  String_ 4 = "4" ∧
  (∀ j k : Z, String_ j = String_ k → j = k).
Proof.
  intros Hrun.
  pose proof (run_line_inv id events 0 _ _ (mounted_line_inv id) Hrun)
    as (Hid & Hline & Hjobs & Hconn & Hopen & Hsome).
  simpl in Hline, Hconn, Hopen, Hsome.
  split_and!; [done | done | | | | | done | done | ].
  - intros Hrs. specialize (Hopen Hrs).
    change (add_line_requests (sent (socket p)) =
            new_line_request id <$> seqZ 4 (Z.of_nat (clicks events))) in Hopen.
    split_and!.
    + exact Hopen.
    + rewrite Hopen, length_fmap, length_seqZ. lia.
    + intros i m Hi. rewrite Hopen in Hi.
      apply list_lookup_fmap_Some in Hi as (k & -> & Hk).
      apply lookup_seqZ in Hk as [-> _]. done.
    + simpl. rewrite task_handleAddLine_open by done. by rewrite Hid.
  - intros Hrs. destruct (Hconn Hrs) as [Hnone Hls].
    split_and!; [done | done | ].
    rewrite dispatch_open_connecting by done. simpl.
    rewrite add_line_requests_app, Hnone, Hls, Hid. simpl.
    unfold add_line_requests at 1. rewrite filter_cons_False by done.
    rewrite request_of_AfterOpenSocket. apply add_line_requests_new_line.
  - intros Hrs. simpl. by rewrite task_handleAddLine_not_open.
  - intros Hrs events' p' Hrun'.
    by apply run_closed in Hrun' as [-> _].
  - intros j k. apply pretty_Z_inj.
Qed.

Lemma handleAddLine_requests_consecutive_witness :
  (add_line_requests (sent (socket page_two_requests)) =
     [mkPlotMessage "plot_0" 1 (NewLineParams "4");
      mkPlotMessage "plot_0" 1 (NewLineParams "5")] ∧
   step AddLineClick page_two_requests =
     Some (with_lineID 6
             (having_sent [mkPlotMessage "plot_0" 1 (NewLineParams "6")]
                page_two_requests))) ∧
  (add_line_requests (sent (socket (dispatch_open page_connecting))) =
     [mkPlotMessage "plot_0" 1 (NewLineParams "4")]) ∧
  (lineID page_closed_waiting = 4 ∧
   ∀ events' p', run events' page_closed_waiting = Some p' →
                 sent (socket p') = []).
Proof.
  split_and!.
  - destruct (handleAddLine_requests_consecutive "plot_0"
                [SocketOpen; AddLineClick; AddLineClick] page_two_requests
                eq_refl) as (_ & _ & Hopen & _).
    destruct (Hopen eq_refl) as (Hreqs & _ & _ & _). exact Hreqs.
  - destruct (handleAddLine_requests_consecutive "plot_0"
                [SocketOpen; AddLineClick; AddLineClick] page_two_requests
                eq_refl) as (_ & _ & Hopen & _).
    destruct (Hopen eq_refl) as (_ & _ & _ & Hstep). exact Hstep.
  - destruct (handleAddLine_requests_consecutive "plot_0"
                [AddLineClick] page_connecting eq_refl)
      as (_ & _ & _ & Hconn & _).
    destruct (Hconn eq_refl) as (_ & _ & Hafter). exact Hafter.
  - destruct (handleAddLine_requests_consecutive "plot_0"
                [SocketClose; AddLineClick] page_closed_waiting eq_refl)
      as (_ & Hline & _ & _ & Hno & _).
    pose proof (Hno ltac:(discriminate)) as _.
    exact Hline.
  - destruct (handleAddLine_requests_consecutive "plot_0"
                [SocketClose; AddLineClick] page_closed_waiting eq_refl)
      as (_ & _ & _ & _ & _ & Hclosed & _).
    exact (Hclosed eq_refl).
Defined.

(* --------------------------------------------------------------------- *)
(** *** The domains of an empty collection *)

Lemma step_store_inv e p p' :
  jobs p = [] → store_inv p → step e p = Some p' → store_inv p'.
Proof.
  intros Hjobs Hinv Hstep.
  destruct e as [|m| |]; simpl in Hstep.
  - case_decide; [|done]. injection Hstep as <-.
    by rewrite dispatch_open_connecting.
  - case_decide; [|done]. injection Hstep as <-.
    rewrite task_onmessage by done. unfold call.
    destruct (onmessage m p) as [r q] eqn:Hrun.
    apply onmessage_effect in Hrun as (_ & _ & _ & _ & _ & _ & Hq). by apply Hq.
  - case_decide; [done|]. by injection Hstep as <-.
  - injection Hstep as <-.
    destruct (decide (readyState (socket p) = OPEN)).
    + by rewrite task_handleAddLine_open.
    + by rewrite task_handleAddLine_not_open.
Qed.

Lemma run_store_inv id events : ∀ n p p',
  line_inv id n p → store_inv p → run events p = Some p' → store_inv p'.
Proof.
  induction events as [|e events IH]; intros n p p' Hline Hinv Hrun;
    simpl in Hrun.
  - by injection Hrun as <-.
  - destruct (step e p) as [q|] eqn:Hstep; [|done].
    apply (IH (n + clicks [e])%nat q p'); [|  | done].
    + by eapply step_line_inv.
    + eapply step_store_inv; [|done..]. by destruct Hline as (_ & _ & ? & _).
Qed.

(** In every reachable page whose collection is empty the y domain is
    [[0, 1]] or still the initial [[0, 0]]. *)
Lemma reachable_empty_domains p :
  reachable p → state_multilineData p = JArray [] →
  multilineYDomain p = (num_of_Z 0, num_of_Z 0) ∨
  multilineYDomain p = (num_of_Z 0, num_of_Z 1).
Proof.
  intros (id & events & Hrun) Hempty.
  destruct (run_store_inv id events 0 (mounted id) p) as (l & Hl & Hdom);
    [apply mounted_line_inv | | done | ].
  - exists []. simpl. auto.
  - apply Hdom. congruence.
Qed.

(** The x domain of an empty collection can be neither: a multiline message
    whose one element has x samples but no y samples overwrites the x
    domain and then throws, before the collection is replaced. *)
Example empty_collection_x_domain :
  run [SocketOpen; SocketMessage msg_multiline_x_only] (mounted "plot_0")
  = Some (with_XDomain (num_of_Z 5, num_of_Z 7) page_open).
Proof. reflexivity. Qed.

(** C5 (the code departs from it): the mounted page, before any message,
    is reachable and has an empty collection, and both its domains are
    [[0, 0]], of zero width, not the default [[0, 1]] that a clear sets. *)
Theorem mounted_domains_not_default (id : string) :
  reachable (mounted id) ∧
  state_multilineData (mounted id) = JArray [] ∧
  multilineXDomain (mounted id) = (num_of_Z 0, num_of_Z 0) ∧
  multilineYDomain (mounted id) = (num_of_Z 0, num_of_Z 0) ∧
  multilineXDomain (mounted id) ≠ (num_of_Z 0, num_of_Z 1) ∧
  multilineYDomain (mounted id) ≠ (num_of_Z 0, num_of_Z 1) ∧
  num_leb (num_of_Z 1) (multilineXDomain (mounted id)).2 = false ∧
  num_leb (num_of_Z 1) (multilineYDomain (mounted id)).2 = false.
Proof.
  split_and!; try done.
  by exists id, [].
Qed.

(** The domains stay at [[0, 0]] while messages are handled on the empty
    collection, until the first clear. *)
Example opened_page_domains :
  run [SocketOpen; SocketMessage msg_multiline_empty] (mounted "plot_0")
  = Some page_open ∧
  multilineXDomain page_open = (num_of_Z 0, num_of_Z 0).
Proof. split; reflexivity. Qed.

(* --------------------------------------------------------------------- *)
(** *** The field that carries the series *)

(** C8 (as stated) fails: a message tagged "multiline data" that carries
    its series in [ml_data] makes the handler throw and leaves the
    collection as it was, and a message tagged "new line data" that carries
    its series in [al_data] gets [undefined] appended in place of the
    series before its handler throws; when both [data] and [ml_data] are
    present it is [data] that is installed. *)
Lemma onmessage_ml_data_counterexample :
  (get_prop msg_ml_data_AB "type" = JString "multiline data" ∧
   get_prop msg_ml_data_AB "ml_data" = lines [seriesA; seriesB] ∧
   onmessage msg_ml_data_AB page_open = (Threw ThrownTypeError, page_open) ∧
   state_multilineData (call (onmessage msg_ml_data_AB) page_open)
     ≠ lines [seriesA; seriesB]) ∧
  (get_prop msg_al_data_C "type" = JString "new line data" ∧
   get_prop msg_al_data_C "al_data" = JLine seriesC ∧
   state_multilineData (call (onmessage msg_al_data_C) page_AB)
     = JArray [JLine seriesA; JLine seriesB; JUndefined] ∧
   state_multilineData (call (onmessage msg_al_data_C) page_AB)
     ≠ lines [seriesA; seriesB; seriesC]) ∧
  (get_prop msg_both_fields "ml_data" = lines [seriesA; seriesB] ∧
   state_multilineData (call (onmessage msg_both_fields) page_open)
     = lines [seriesC]).
Proof.
  split_and!; try reflexivity.
  - unfold lines. vm_compute. discriminate.
  - unfold lines. vm_compute. discriminate.
Qed.

(** C8 (as amended): every inbound message tagged "multiline data" or "new
    line data" has its series payload read from the field [data]: the
    series list found there is installed, respectively the series found
    there is appended, and the handling of a message depends on no field
    but [type] and [data]. *)
Theorem onmessage_reads_data :
  (∀ (m : Message) ds p,
     get_prop m "type" = JString "multiline data" →
     get_prop m "data" = lines ds → ds ≠ [] →
     state_multilineData (call (onmessage m) p) = lines ds) ∧
  (∀ (m : Message) s ds p,
     get_prop m "type" = JString "new line data" →
     get_prop m "data" = JLine s →
     state_multilineData p = lines ds →
     state_multilineData (call (onmessage m) p) = lines (ds ++ [s])) ∧
  (∀ (m m' : Message) p,
     get_prop m "type" = get_prop m' "type" →
     get_prop m "data" = get_prop m' "data" →
     onmessage m p = onmessage m' p).
Proof.
  split_and!.
  - intros m ds p Htype Hdata Hne.
    destruct (plot_multiline_data_lines m ds p Hdata Hne)
      as (dx & dy & _ & _ & Hrun).
    unfold call. rewrite onmessage_multiline by done.
    erewrite bind_returned by exact Hrun.
    destruct (socket_send _ _) as [r q] eqn:Hsend.
    by apply socket_send_frame in Hsend as [->| ->].
  - intros m s ds p Htype Hdata Hst.
    destruct (plot_new_line_data_lines m s ds p Hst Hdata)
      as (dx & dy & _ & _ & Hrun).
    unfold call. rewrite onmessage_new_line by done.
    erewrite bind_returned by exact Hrun.
    destruct (socket_send _ _) as [r q] eqn:Hsend.
    by apply socket_send_frame in Hsend as [->| ->].
  - intros m m' p Htype Hdata.
    unfold onmessage, plot_multiline_data, plot_new_line_data.
    by rewrite Htype, Hdata.
Qed.

Lemma onmessage_reads_data_witness :
  state_multilineData (call (onmessage msg_both_fields) page_open)
    = lines [seriesC] ∧
  state_multilineData (call (onmessage msg_new_line_C) page_AB)
    = lines ([seriesA; seriesB] ++ [seriesC]) ∧
  onmessage msg_both_fields page_open =
    onmessage {[ "type" := JString "multiline data";
                 "data" := lines [seriesC] ]} page_open.
Proof.
  destruct onmessage_reads_data as (Hmulti & Hline & Honly).
  split_and!.
  - apply Hmulti; [reflexivity | reflexivity | discriminate].
  - apply Hline; reflexivity.
  - apply Honly; reflexivity.
Defined.

(** A socket that closes before it ever opened leaves the caller of
    [sendNewLineRequest] waiting: nothing is sent. *)
Example add_line_on_closed_socket :
  run [SocketClose; AddLineClick] (mounted "plot_0") =
  Some (mkPage "plot_0" (JArray [])
          (mkWebSocket CLOSED [[AfterOpenSocket 4]] []) 4
          (num_of_Z 0, num_of_Z 0) (num_of_Z 0, num_of_Z 0) []).
Proof. reflexivity. Qed.

(** The scenarios of the design document as one run: the socket opens, a
    multiline message brings A and B, a new-line message appends C, and a
    clear empties the plot; each message is acknowledged. *)
Example scenario_run :
  run [SocketOpen; SocketMessage msg_multiline_AB] (mounted "plot_0")
    = Some page_AB_acked ∧
  run [SocketMessage msg_new_line_C] page_AB_acked = Some page_ABC ∧
  run [SocketMessage msg_clear] page_ABC = Some page_cleared.
Proof. split_and!; reflexivity. Qed.

(* ===================================================================== *)
(** ** The selection component *)
(* ===================================================================== *)

Module SelectionFacts.
Import Selection.

(** The sign of a difference is the order of its operands. *)
Lemma num_sub_negative a b :
  num_ltb (num_sub a b) (num_of_Z 0) = num_ltb a b.
Proof.
  destruct a as [| |p|], b as [| |q|]; try reflexivity.
  simpl. f_equal. apply eq_true_iff_eq. rewrite !Qle_bool_iff.
  rewrite (Qle_minus_iff q p). unfold Qminus, inject_Z. done.
Qed.

(** C7: for every coordinate transform, the flags are computed from the
    screen-space images of the data-space points (0,0) and (1,1): each
    axis, on its own, is marked flipped exactly when the screen-space delta
    on that axis is negative, that is when its sign disagrees with that of
    the data-space delta, which is positive. *)
Theorem isFlipped_negative_delta (Camera : Type)
    (dataToHtml : Camera → Vector3 → Vector3) (camera : Camera) :
  let o := dataToHtml camera (mkVector3 (num_of_Z 0) (num_of_Z 0) (num_of_Z 0)) in
  let u := dataToHtml camera (mkVector3 (num_of_Z 1) (num_of_Z 1) (num_of_Z 0)) in
  isFlipped Camera dataToHtml camera =
    (num_ltb (num_sub (x u) (x o)) (num_of_Z 0),
     num_ltb (num_sub (y u) (y o)) (num_of_Z 0)) ∧
  (isFlipped Camera dataToHtml camera).1 = num_ltb (x u) (x o) ∧
  (isFlipped Camera dataToHtml camera).2 = num_ltb (y u) (y o) ∧
  num_ltb (num_of_Z 0) (num_sub (num_of_Z 1) (num_of_Z 0)) = true.
Proof.
  unfold isFlipped, Vector3_xy. simpl.
  split_and!; [done | apply num_sub_negative | apply num_sub_negative | done].
Qed.

(** A canvas that mirrors y flips the y axis only. *)
Example isFlipped_mirror_y : isFlipped unit mirror_y tt = (false, true).
Proof. reflexivity. Qed.

Lemma counter_updateCounters t c :
  counter (updateCounters t c) t = counter c t + 1.
Proof. by destruct t. Qed.

Lemma counter_updateCounters_other t t' c :
  t' ≠ t → counter (updateCounters t c) t' = counter c t'.
Proof. by destruct t, t'. Qed.

Lemma validate_spec g :
  validate g = true ↔
  num_le (num_of_Z 20) (box_width (html g)) ∧
  num_le (num_of_Z 20) (box_height (html g)).
Proof. unfold validate, hasMinSize, num_le. apply andb_true_iff. Qed.

(** C3: a gesture whose screen-space bounding box is below 20 by 20 is not
    committed: no region is added and no counter changes.  A gesture whose
    bounding box has both dimensions at or above 20 is committed exactly
    once: one region of the selected kind is added to the region
    collection, the counter of the selected kind grows by exactly 1, and
    the counters of all other kinds are unchanged. *)
Theorem pointer_up_commits_valid_gesture_once (t : SelectionType)
    (g : Gesture) (st : State) :
  (¬ (num_le (num_of_Z 20) (box_width (html g)) ∧
      num_le (num_of_Z 20) (box_height (html g))) →
   pointer_up t g st = st) ∧
  (num_le (num_of_Z 20) (box_width (html g)) →
   num_le (num_of_Z 20) (box_height (html g)) →
   ∃ r,
     selections (pointer_up t g st) = selections st ++ [r] ∧
     region_kind r = t ∧
     region_id r = (t, counter (counters st) t) ∧
     region_points r = data g ∧
     counter (counters (pointer_up t g st)) t = counter (counters st) t + 1 ∧
     (∀ t', t' ≠ t →
        counter (counters (pointer_up t g st)) t' = counter (counters st) t')).
Proof.
  unfold pointer_up. split.
  - intros Hsmall. destruct (validate g) eqn:Hv; [|done].
    apply validate_spec in Hv. done.
  - intros Hw Hh. rewrite (proj2 (validate_spec g)) by done.
    unfold onValidSelection, pointsToSelection. simpl.
    eexists. split_and!; try reflexivity.
    + apply counter_updateCounters.
    + intros t'. apply counter_updateCounters_other.
Qed.

Lemma pointer_up_commits_valid_gesture_once_witness :
  pointer_up rectangle gesture_small selection_start = selection_start ∧
  pointer_up rectangle gesture_thin selection_start = selection_start ∧
  ∃ r,
    selections (pointer_up rectangle gesture_large selection_start) = [r] ∧
    region_kind r = rectangle ∧
    region_id r = (rectangle, 0) ∧
    region_points r = data gesture_large ∧
    counter (counters (pointer_up rectangle gesture_large selection_start))
      rectangle = 1 ∧
    (∀ t', t' ≠ rectangle →
       counter (counters (pointer_up rectangle gesture_large selection_start))
         t' = 0).
Proof.
  split_and!.
  - apply (pointer_up_commits_valid_gesture_once rectangle gesture_small).
    intros [H _]. discriminate H.
  - apply (pointer_up_commits_valid_gesture_once rectangle gesture_thin).
    intros [_ H]. discriminate H.
  - destruct (pointer_up_commits_valid_gesture_once rectangle gesture_large
                selection_start) as [_ Hbig].
    destruct (Hbig eq_refl eq_refl) as (r & H1 & H2 & H3 & H4 & H5 & H6).
    exists r. split_and!; try done.
    intros t' Ht'. rewrite H6 by done. by destruct t'.
Defined.

End SelectionFacts.


(* ===================================================================== *)
(** ** Further properties of the domain computation *)
(* ===================================================================== *)

Lemma Math_min_singleton m : Math_min [m] = m.
Proof. by destruct m. Qed.

Lemma Math_max_singleton m : Math_max [m] = m.
Proof. by destruct m. Qed.

Lemma foldl_min2_NaN l : foldl min2 NaN l = NaN.
Proof. induction l as [|v l IH]; [done|]. simpl. exact IH. Qed.

Lemma foldl_max2_NaN l : foldl max2 NaN l = NaN.
Proof. induction l as [|v l IH]; [done|]. simpl. exact IH. Qed.

Lemma min2_NaN_r a : min2 a NaN = NaN.
Proof. by destruct a. Qed.

Lemma max2_NaN_r a : max2 a NaN = NaN.
Proof. by destruct a. Qed.

(** One NaN among the arguments makes [Math.min] and [Math.max] NaN. *)
Lemma Math_min_NaN args : NaN ∈ args → Math_min args = NaN.
Proof.
  unfold Math_min. generalize Infinity.
  induction args as [|v args IH]; intros a Hin.
  - by apply elem_of_nil in Hin.
  - apply elem_of_cons in Hin as [<-|Hin]; simpl.
    + by rewrite min2_NaN_r, foldl_min2_NaN.
    + by apply IH.
Qed.

Lemma Math_max_NaN args : NaN ∈ args → Math_max args = NaN.
Proof.
  unfold Math_max. generalize NegInfinity.
  induction args as [|v args IH]; intros a Hin.
  - by apply elem_of_nil in Hin.
  - apply elem_of_cons in Hin as [<-|Hin]; simpl.
    + by rewrite max2_NaN_r, foldl_max2_NaN.
    + by apply IH.
Qed.

(** The loop over a concatenation is the loop over the second part started
    from where the loop over the first part ended. *)
Lemma domain_loop_app axis `{!ObjectAxis axis} l1 l2 : ∀ mn mx,
  domain_loop axis (l1 ++ l2) mn mx =
  match domain_loop axis l1 mn mx with
  | Normal (a, b) => domain_loop axis l2 a b
  | TypeError => TypeError
  end.
Proof.
  induction l1 as [|e l1 IH]; intros mn mx; simpl; [done|].
  destruct (samples_of axis e); [apply IH | done].
Qed.

(** Once both running values are NaN they stay NaN. *)
Lemma domain_loop_NaN axis `{!ObjectAxis axis} (ds : list LineData) :
  domain_loop axis (JLine <$> ds) NaN NaN = Normal (NaN, NaN).
Proof.
  induction ds as [|d ds IH]; [done|].
  rewrite fmap_cons. cbn [domain_loop samples_of].
  rewrite Math_min_NaN, Math_max_NaN; [done | | ];
    apply elem_of_app; right; by left.
Qed.

(** A NaN sample met by the loop turns both running values into NaN. *)
Lemma domain_loop_NaN_sample axis `{!ObjectAxis axis} (ds : list LineData) : ∀ mn mx,
  (∃ d, d ∈ ds ∧ NaN ∈ axis d) →
  domain_loop axis (JLine <$> ds) mn mx = Normal (NaN, NaN).
Proof.
  induction ds as [|d ds IH]; intros mn mx (d' & Hd' & Hnan).
  - by apply elem_of_nil in Hd'.
  - rewrite fmap_cons. cbn [domain_loop samples_of].
    apply elem_of_cons in Hd' as [->|Hd'].
    + rewrite Math_min_NaN, Math_max_NaN;
        [apply domain_loop_NaN | | ]; apply elem_of_app; by left.
    + apply IH. eauto.
Qed.









(** With a first series that has no sample on the axis, or with a NaN
    sample anywhere on the axis, both ends of the domain are NaN. *)
Lemma calculateMultiDomain_NaN axis `{!ObjectAxis axis} d0 (ds : list LineData) :
  axis d0 = [] ∨ (∃ d, d ∈ d0 :: ds ∧ NaN ∈ axis d) →
  calculateMultiDomain axis (lines (d0 :: ds)) = Normal (NaN, NaN).
Proof.
  intros Hbad. unfold calculateMultiDomain, lines.
  rewrite fmap_cons. cbn [samples_of]. rewrite <- fmap_cons.
  destruct Hbad as [Hempty|Hnan].
  - rewrite Hempty. change (ToNumber ([] !! 0%nat)) with NaN.
    apply domain_loop_NaN.
  - by apply domain_loop_NaN_sample.
Qed.

(* --------------------------------------------------------------------- *)
(** *** Appending a series *)

(** C4: applying [appendSeries(s)] (the handler of "new line data") to a
    collection of n series yields a collection of n+1 series in which the
    first n series are unchanged and [s] is last, and both axis domains are
    then recomputed over the entire updated collection of n+1 series, not
    just over [s]: each stored domain is the result of the domain
    computation on the n+1 series, that is, when the first of them has a
    sample on the axis and no sample on the axis is NaN, a pair [min, max]
    attained by samples of the n+1 series and containing every sample of
    every one of them, and [NaN, NaN] otherwise. *)
Theorem plot_new_line_data_appends (m : Message) (s : LineData)
    (ds : list LineData) (p : Page) :
  state_multilineData p = lines ds →
  get_prop m "data" = JLine s →
  ∃ p',
    plot_new_line_data m p = (Returned tt, p') ∧
    state_multilineData p' = lines (ds ++ [s]) ∧
    length (ds ++ [s]) = S (length ds) ∧
    take (length ds) (ds ++ [s]) = ds ∧
    last (ds ++ [s]) = Some s ∧
    calculateMultiXDomain (lines (ds ++ [s])) = Normal (multilineXDomain p') ∧
    calculateMultiYDomain (lines (ds ++ [s])) = Normal (multilineYDomain p') ∧
    ((∃ d0 rest, ds ++ [s] = d0 :: rest ∧ x d0 ≠ []) → no_NaN x (ds ++ [s]) →
     domain_of x (ds ++ [s]) (multilineXDomain p')) ∧
    ((∃ d0 rest, ds ++ [s] = d0 :: rest ∧ y d0 ≠ []) → no_NaN y (ds ++ [s]) →
     domain_of y (ds ++ [s]) (multilineYDomain p')) ∧
    ((∃ d0 rest, ds ++ [s] = d0 :: rest ∧
        (x d0 = [] ∨ ∃ d, d ∈ ds ++ [s] ∧ NaN ∈ x d)) →
     multilineXDomain p' = (NaN, NaN)) ∧
    ((∃ d0 rest, ds ++ [s] = d0 :: rest ∧
        (y d0 = [] ∨ ∃ d, d ∈ ds ++ [s] ∧ NaN ∈ y d)) →
     multilineYDomain p' = (NaN, NaN)).
Proof.
  intros Hst Hdata.
  destruct (plot_new_line_data_lines m s ds p Hst Hdata)
    as (dx & dy & Hx & Hy & Hrun).
  eexists. split; [exact Hrun|]. cbn [state_multilineData multilineXDomain
                                      multilineYDomain].
  split_and!; [done | | | | done | done | | | | ].
  - rewrite length_app. simpl. lia.
  - by rewrite take_app_length.
  - by rewrite last_snoc.
  - intros Hfirst Hnan.
    destruct (calculateMultiDomain_spec x _ Hfirst Hnan) as (dom & Hdom & Hof).
    fold calculateMultiXDomain in Hdom. congruence.
  - intros Hfirst Hnan.
    destruct (calculateMultiDomain_spec y _ Hfirst Hnan) as (dom & Hdom & Hof).
    fold calculateMultiYDomain in Hdom. congruence.
  - intros (d0 & rest & Heq & Hbad). rewrite Heq in Hx, Hbad.
    unfold calculateMultiXDomain in Hx.
    rewrite (calculateMultiDomain_NaN x d0 rest Hbad) in Hx. congruence.
  - intros (d0 & rest & Heq & Hbad). rewrite Heq in Hy, Hbad.
    unfold calculateMultiYDomain in Hy.
    rewrite (calculateMultiDomain_NaN y d0 rest Hbad) in Hy. congruence.
Qed.

Lemma plot_new_line_data_appends_witness :
  ∃ p',
    plot_new_line_data msg_new_line_C page_AB = (Returned tt, p') ∧
    state_multilineData p' = lines ([seriesA; seriesB] ++ [seriesC]) ∧
    domain_of x ([seriesA; seriesB] ++ [seriesC]) (multilineXDomain p') ∧
    domain_of y ([seriesA; seriesB] ++ [seriesC]) (multilineYDomain p').
Proof.
  destruct (plot_new_line_data_appends msg_new_line_C seriesC
              [seriesA; seriesB] page_AB eq_refl eq_refl)
    as (p' & Hrun & Hst & _ & _ & _ & _ & _ & Hx & Hy & _ & _).
  exists p'. split_and!; [exact Hrun | exact Hst | apply Hx | apply Hy].
  - exists seriesA, [seriesB; seriesC]. split; [reflexivity | discriminate].
  - intros d v Hd Hv. simpl in Hd.
    repeat (apply elem_of_cons in Hd as [->|Hd]);
      [ | | | by apply elem_of_nil in Hd];
      repeat (apply elem_of_cons in Hv as [->|Hv]);
      try discriminate; by apply elem_of_nil in Hv.
  - exists seriesA, [seriesB; seriesC]. split; [reflexivity | discriminate].
  - intros d v Hd Hv. simpl in Hd.
    repeat (apply elem_of_cons in Hd as [->|Hd]);
      [ | | | by apply elem_of_nil in Hd];
      repeat (apply elem_of_cons in Hv as [->|Hv]);
      try discriminate; by apply elem_of_nil in Hv.
Defined.

(** X2: when the first series has no sample on the axis, or when any
    series holds a NaN sample on the axis, both ends of the computed domain
    are NaN, whatever the other samples are. *)
Theorem calculateMultiDomain_poisoned (axis : LineData → list number)
    `{!ObjectAxis axis}
    (d0 : LineData) (ds : list LineData) :
  axis d0 = [] ∨ (∃ d, d ∈ d0 :: ds ∧ NaN ∈ axis d) →
  calculateMultiDomain axis (lines (d0 :: ds)) = Normal (NaN, NaN).
Proof.
  intros Hbad. unfold calculateMultiDomain, lines.
  rewrite fmap_cons. cbn [samples_of]. rewrite <- fmap_cons.
  destruct Hbad as [Hempty|Hnan].
  - rewrite Hempty. change (ToNumber ([] !! 0%nat)) with NaN.
    apply domain_loop_NaN.
  - by apply domain_loop_NaN_sample.
Qed.

Lemma calculateMultiDomain_poisoned_witness :
  calculateMultiDomain x (lines [seriesEmpty; seriesB]) = Normal (NaN, NaN) ∧
  calculateMultiDomain y (lines [seriesA; seriesNaN]) = Normal (NaN, NaN).
Proof.
  split.
  - apply (calculateMultiDomain_poisoned x seriesEmpty [seriesB]).
    left. reflexivity.
  - apply (calculateMultiDomain_poisoned y seriesA [seriesNaN]).
    right. exists seriesNaN. split; [right; left | left].
Defined.

(** X3: the domain of a collection extended by one series is obtained from
    the domain of the collection by one step: the new minimum is
    [Math.min] of the new samples and the old minimum, the new maximum
    [Math.max] of the new samples and the old maximum. *)
Theorem calculateMultiDomain_snoc (axis : LineData → list number)
    `{!ObjectAxis axis}
    (ds : list LineData) (s : LineData) :
  ds ≠ [] →
  ∃ mn mx,
    calculateMultiDomain axis (lines ds) = Normal (mn, mx) ∧
    calculateMultiDomain axis (lines (ds ++ [s])) =
      Normal (Math_min (axis s ++ [mn]), Math_max (axis s ++ [mx])).
Proof.
  intros Hne. destruct (calculateMultiDomain_total axis ds Hne) as [[mn mx] H].
  exists mn, mx. split; [done|].
  destruct ds as [|d0 ds]; [done|].
  unfold calculateMultiDomain, lines in *.
  rewrite <- app_comm_cons, fmap_cons. rewrite fmap_cons in H.
  cbn [samples_of] in *.
  rewrite fmap_app, app_comm_cons, domain_loop_app, H. reflexivity.
Qed.

Lemma calculateMultiDomain_snoc_witness :
  ∃ mn mx,
    calculateMultiDomain x (lines [seriesA; seriesB]) = Normal (mn, mx) ∧
    calculateMultiDomain x (lines ([seriesA; seriesB] ++ [seriesC])) =
      Normal (Math_min (x seriesC ++ [mn]), Math_max (x seriesC ++ [mx])).
Proof.
  apply (calculateMultiDomain_snoc x [seriesA; seriesB] seriesC). discriminate.
Defined.

(** X4: a series without samples on the axis, anywhere but in first
    position, does not change the computed domain. *)
Theorem calculateMultiDomain_skips_empty (axis : LineData → list number)
    `{!ObjectAxis axis}
    (ds1 ds2 : list LineData) (e : LineData) :
  ds1 ≠ [] → axis e = [] →
  calculateMultiDomain axis (lines (ds1 ++ e :: ds2)) =
  calculateMultiDomain axis (lines (ds1 ++ ds2)).
Proof.
  intros Hne He. destruct ds1 as [|d0 ds1]; [done|].
  unfold calculateMultiDomain, lines.
  rewrite <- !app_comm_cons, !(fmap_cons _ d0). cbn [samples_of].
  rewrite !fmap_app, !app_comm_cons, !domain_loop_app.
  destruct (domain_loop axis (JLine d0 :: (JLine <$> ds1)) _ _)
    as [[mn mx]|]; [|done].
  rewrite fmap_cons. cbn [domain_loop samples_of].
  by rewrite He, !app_nil_l, Math_min_singleton, Math_max_singleton.
Qed.

Lemma calculateMultiDomain_skips_empty_witness :
  calculateMultiDomain x (lines ([seriesA] ++ seriesEmpty :: [seriesB])) =
  calculateMultiDomain x (lines ([seriesA] ++ [seriesB])).
Proof.
  apply (calculateMultiDomain_skips_empty x [seriesA] [seriesB] seriesEmpty);
    [discriminate | reflexivity].
Defined.

(** X5: when the first series has a sample on the axis and no sample on
    the axis is NaN, the computed domain is ordered: its minimum is at most
    its maximum, and neither is NaN. *)
Theorem calculateMultiDomain_ordered (axis : LineData → list number)
    `{!ObjectAxis axis}
    (ds : list LineData) :
  (∃ d0 ds', ds = d0 :: ds' ∧ axis d0 ≠ []) → no_NaN axis ds →
  ∃ mn mx, calculateMultiDomain axis (lines ds) = Normal (mn, mx) ∧
           num_le mn mx ∧ mn ≠ NaN ∧ mx ≠ NaN.
Proof.
  intros Hfirst Hnan.
  destruct (calculateMultiDomain_spec axis ds Hfirst Hnan)
    as ([mn mx] & Hrun & (d & Hd & Hmn) & (d' & Hd' & Hmx) & Hall).
  simpl in *. exists mn, mx. split; [done|].
  destruct (Hall d mn Hd Hmn) as [_ Hle].
  split_and!; [done | exact (Hnan d mn Hd Hmn) | exact (Hnan d' mx Hd' Hmx)].
Qed.

Lemma calculateMultiDomain_ordered_witness :
  ∃ mn mx, calculateMultiDomain y (lines [seriesA; seriesB]) = Normal (mn, mx) ∧
           num_le mn mx ∧ mn ≠ NaN ∧ mx ≠ NaN.
Proof.
  apply (calculateMultiDomain_ordered y [seriesA; seriesB]).
  - exists seriesA, [seriesB]. split; [reflexivity | discriminate].
  - intros d v Hd Hv.
    repeat (apply elem_of_cons in Hd as [->|Hd]);
      [ | | by apply elem_of_nil in Hd];
      repeat (apply elem_of_cons in Hv as [->|Hv]);
      try discriminate; by apply elem_of_nil in Hv.
Defined.

Lemma domain_loop_axis_only axis `{!ObjectAxis axis} (ds : list LineData) : ∀ ds' mn mx,
  axis <$> ds = axis <$> ds' →
  domain_loop axis (JLine <$> ds) mn mx = domain_loop axis (JLine <$> ds') mn mx.
Proof.
  induction ds as [|d ds IH]; intros [|d' ds'] mn mx Heq; try done.
  rewrite !fmap_cons in Heq. injection Heq as Hd Hds.
  rewrite !fmap_cons. cbn [domain_loop samples_of]. rewrite Hd. by apply IH.
Qed.

(** X23: the domain of an axis depends on nothing but the samples on that
    axis: two collections whose series have the same x samples have the
    same x domain, whatever their y samples, keys and styles, and likewise
    for y. *)
Theorem calculateMultiDomain_axis_only (ds ds' : list LineData) :
  (x <$> ds = x <$> ds' →
   calculateMultiXDomain (lines ds) = calculateMultiXDomain (lines ds')) ∧
  (y <$> ds = y <$> ds' →
   calculateMultiYDomain (lines ds) = calculateMultiYDomain (lines ds')).
Proof.
  assert (∀ axis `{!ObjectAxis axis}, axis <$> ds = axis <$> ds' →
            calculateMultiDomain axis (lines ds) =
            calculateMultiDomain axis (lines ds')) as H.
  { intros axis Hax Heq. destruct ds as [|d ds], ds' as [|d' ds']; try done.
    unfold calculateMultiDomain, lines. rewrite !fmap_cons. cbn [samples_of].
    rewrite <- !fmap_cons.
    rewrite (domain_loop_axis_only axis (d :: ds) (d' :: ds')) by done.
    rewrite !fmap_cons in Heq. injection Heq as -> _. done. }
  split; apply H.
Qed.

Lemma calculateMultiDomain_axis_only_witness :
  calculateMultiXDomain (lines [seriesA; seriesB]) =
  calculateMultiXDomain
    (lines [mkLineData "A2" (Some "red") (x seriesA) [NaN] false None;
            mkLineData "B2" None (x seriesB) [] true None]).
Proof.
  destruct (calculateMultiDomain_axis_only [seriesA; seriesB]
              [mkLineData "A2" (Some "red") (x seriesA) [NaN] false None;
               mkLineData "B2" None (x seriesB) [] true None]) as [Hx _].
  apply Hx. reflexivity.
Defined.

(* ===================================================================== *)
(** ** Further properties of the message handlers *)
(* ===================================================================== *)

(** X6: [plot_multiline_data] changes nothing but the collection and the
    two domains, and ends in one of three ways.  When both domains of
    [message.data] can be computed it returns with the collection replaced
    by [message.data] and both domains stored.  When the x domain cannot be
    computed it throws and leaves the page exactly as it was.  When the x
    domain can be computed but the y domain cannot, it throws after having
    overwritten the x domain: the collection and the y domain are as
    before, the stored x domain is that of the rejected data. *)
Theorem plot_multiline_data_outcomes (m : Message) (p : Page) :
  ∃ r p',
    plot_multiline_data m p = (r, p') ∧
    props_plot_id p' = props_plot_id p ∧ socket p' = socket p ∧
    lineID p' = lineID p ∧ jobs p' = jobs p ∧
    ((r = Returned tt ∧
      state_multilineData p' = get_prop m "data" ∧
      calculateMultiXDomain (get_prop m "data") = Normal (multilineXDomain p') ∧
      calculateMultiYDomain (get_prop m "data") = Normal (multilineYDomain p')) ∨
     (r = Threw ThrownTypeError ∧
      calculateMultiXDomain (get_prop m "data") = TypeError ∧
      p' = p) ∨
     (r = Threw ThrownTypeError ∧
      calculateMultiXDomain (get_prop m "data") = Normal (multilineXDomain p') ∧
      calculateMultiYDomain (get_prop m "data") = TypeError ∧
      state_multilineData p' = state_multilineData p ∧
      multilineYDomain p' = multilineYDomain p)).
Proof.
  unfold plot_multiline_data. run_m.
  destruct (calculateMultiXDomain (get_prop m "data")) as [dx|] eqn:Hx; simpl.
  - destruct (calculateMultiYDomain (get_prop m "data")) as [dy|] eqn:Hy; simpl.
    + eexists _, _. split; [reflexivity|]. simpl.
      split_and!; [done..|]. left. done.
    + eexists _, _. split; [reflexivity|]. simpl.
      split_and!; [done..|]. right. right. done.
  - eexists _, _. split; [reflexivity|].
    split_and!; [done..|]. right. left. done.
Qed.

(** The third way is taken by data whose one element has x samples but no
    y samples. *)
Example plot_multiline_data_x_only :
  plot_multiline_data msg_multiline_x_only page_AB =
  (Threw ThrownTypeError, with_XDomain (num_of_Z 5, num_of_Z 7) page_AB).
Proof. reflexivity. Qed.

(** X7: [plot_new_line_data] always extends the collection by
    [message.data], whatever that value is, because the push comes first;
    nothing but the collection and the two domains is changed.  When both
    domains of the extended collection can be computed they are stored.
    When the x domain cannot be computed the handler throws with the value
    already in the collection and both domains left as they were.  When the
    x domain can be computed but the y domain cannot, it throws with the x
    domain overwritten and the y domain left as it was. *)
Theorem plot_new_line_data_always_pushes (m : Message) (l : list JSValue)
    (p : Page) :
  state_multilineData p = JArray l →
  ∃ r p',
    plot_new_line_data m p = (r, p') ∧
    state_multilineData p' = JArray (l ++ [get_prop m "data"]) ∧
    props_plot_id p' = props_plot_id p ∧
    socket p' = socket p ∧ lineID p' = lineID p ∧ jobs p' = jobs p ∧
    ((r = Returned tt ∧
      calculateMultiXDomain (state_multilineData p') = Normal (multilineXDomain p') ∧
      calculateMultiYDomain (state_multilineData p') = Normal (multilineYDomain p')) ∨
     (r = Threw ThrownTypeError ∧
      calculateMultiXDomain (state_multilineData p') = TypeError ∧
      multilineXDomain p' = multilineXDomain p ∧
      multilineYDomain p' = multilineYDomain p) ∨
     (r = Threw ThrownTypeError ∧
      calculateMultiXDomain (state_multilineData p') = Normal (multilineXDomain p') ∧
      calculateMultiYDomain (state_multilineData p') = TypeError ∧
      multilineYDomain p' = multilineYDomain p)).
Proof.
  intros Hst. unfold plot_new_line_data, push_multilineData. run_m.
  rewrite Hst. simpl.
  destruct (calculateMultiXDomain (JArray (l ++ [get_prop m "data"])))
    as [dx|] eqn:Hx; simpl.
  - destruct (calculateMultiYDomain (JArray (l ++ [get_prop m "data"])))
      as [dy|] eqn:Hy; simpl.
    + eexists _, _. split; [reflexivity|]. simpl.
      split_and!; [done..|]. left. done.
    + eexists _, _. split; [reflexivity|]. simpl.
      split_and!; [done..|]. right. right. done.
  - eexists _, _. split; [reflexivity|]. simpl.
    split_and!; [done..|]. right. left. done.
Qed.

Lemma plot_new_line_data_always_pushes_witness :
  (∃ r p',
     plot_new_line_data msg_al_data_C page_AB = (r, p') ∧
     state_multilineData p' =
       JArray ([JLine seriesA; JLine seriesB] ++ [JUndefined]) ∧
     r = Threw ThrownTypeError ∧
     multilineXDomain p' = multilineXDomain page_AB ∧
     multilineYDomain p' = multilineYDomain page_AB) ∧
  (∃ r p',
     plot_new_line_data msg_new_line_x_only page_AB = (r, p') ∧
     state_multilineData p' =
       JArray ([JLine seriesA; JLine seriesB] ++
               [JObject (Some [num_of_Z 5; num_of_Z 7]) None]) ∧
     r = Threw ThrownTypeError ∧
     multilineXDomain p' = (num_of_Z 0, num_of_Z 7) ∧
     multilineYDomain p' = multilineYDomain page_AB).
Proof.
  split.
  - destruct (plot_new_line_data_always_pushes msg_al_data_C
                [JLine seriesA; JLine seriesB] page_AB eq_refl)
      as (r & p' & Hrun & Hst & _ & _ & _ & _ & _).
    exists r, p'. split; [exact Hrun|]. split; [exact Hst|].
    vm_compute in Hrun. injection Hrun as <- <-. split_and!; reflexivity.
  - destruct (plot_new_line_data_always_pushes msg_new_line_x_only
                [JLine seriesA; JLine seriesB] page_AB eq_refl)
      as (r & p' & Hrun & Hst & _ & _ & _ & _ & _).
    exists r, p'. split; [exact Hrun|]. split; [exact Hst|].
    vm_compute in Hrun. injection Hrun as <- <-. split_and!; reflexivity.
Defined.



(** X9: a "clear plots" message never fails: on an open socket, whatever
    the collection and the domains were, the handler returns with an empty
    collection, both domains [[0, 1]], and one ready status sent; nothing
    else is changed. *)
Theorem onmessage_clear_always_succeeds (m : Message) (p : Page) :
  get_prop m "type" = JString "clear plots" →
  readyState (socket p) = OPEN →
  onmessage m p =
  (Returned tt,
   mkPage (props_plot_id p) (JArray [])
     (mkWebSocket OPEN (open_listeners (socket p))
        (sent (socket p) ++ [ready_status (props_plot_id p)]))
     (lineID p) (num_of_Z 0, num_of_Z 1) (num_of_Z 0, num_of_Z 1) (jobs p)).
Proof. apply onmessage_clear_acks. Qed.

Lemma onmessage_clear_always_succeeds_witness :
  onmessage msg_clear page_poisoned =
  (Returned tt,
   mkPage "plot_0" (JArray [])
     (mkWebSocket OPEN [] [ready_status "plot_0"; ready_status "plot_0"])
     3 (num_of_Z 0, num_of_Z 1) (num_of_Z 0, num_of_Z 1) []).
Proof.
  apply (onmessage_clear_always_succeeds msg_clear page_poisoned); reflexivity.
Defined.

(** X10: on an open socket, a "multiline data" message whose [data] is a
    non-empty array of line objects, and a "new line data" message whose
    [data] is a line object arriving on a collection of line objects, are
    applied and then acknowledged by exactly one ready status appended to
    what was sent; the line counter, the listeners and the job queue are
    not touched. *)
Theorem onmessage_acknowledges_well_formed (p : Page) :
  readyState (socket p) = OPEN →
  (∀ (m : Message) ds,
     get_prop m "type" = JString "multiline data" →
     get_prop m "data" = lines ds → ds ≠ [] →
     ∃ dx dy,
       calculateMultiXDomain (lines ds) = Normal dx ∧
       calculateMultiYDomain (lines ds) = Normal dy ∧
       onmessage m p =
       (Returned tt,
        mkPage (props_plot_id p) (lines ds)
          (mkWebSocket OPEN (open_listeners (socket p))
             (sent (socket p) ++ [ready_status (props_plot_id p)]))
          (lineID p) dx dy (jobs p))) ∧
  (∀ (m : Message) s ds,
     get_prop m "type" = JString "new line data" →
     get_prop m "data" = JLine s →
     state_multilineData p = lines ds →
     ∃ dx dy,
       calculateMultiXDomain (lines (ds ++ [s])) = Normal dx ∧
       calculateMultiYDomain (lines (ds ++ [s])) = Normal dy ∧
       onmessage m p =
       (Returned tt,
        mkPage (props_plot_id p) (lines (ds ++ [s]))
          (mkWebSocket OPEN (open_listeners (socket p))
             (sent (socket p) ++ [ready_status (props_plot_id p)]))
          (lineID p) dx dy (jobs p))).
Proof.
  intros Hopen. split.
  - intros m ds Htype Hdata Hne. by apply onmessage_multiline_acks.
  - intros m s ds Htype Hdata Hst. by apply onmessage_new_line_acks.
Qed.

Lemma onmessage_acknowledges_well_formed_witness :
  (∃ dx dy,
     calculateMultiXDomain (lines [seriesA; seriesB]) = Normal dx ∧
     calculateMultiYDomain (lines [seriesA; seriesB]) = Normal dy ∧
     onmessage msg_multiline_AB page_open =
     (Returned tt,
      mkPage "plot_0" (lines [seriesA; seriesB])
        (mkWebSocket OPEN [] [ready_status "plot_0"; ready_status "plot_0"])
        3 dx dy [])) ∧
  (∃ dx dy,
     calculateMultiXDomain (lines ([seriesA; seriesB] ++ [seriesC])) = Normal dx ∧
     calculateMultiYDomain (lines ([seriesA; seriesB] ++ [seriesC])) = Normal dy ∧
     onmessage msg_new_line_C page_AB =
     (Returned tt,
      mkPage "plot_0" (lines ([seriesA; seriesB] ++ [seriesC]))
        (mkWebSocket OPEN [] [ready_status "plot_0"; ready_status "plot_0"])
        3 dx dy [])).
Proof.
  split.
  - destruct (onmessage_acknowledges_well_formed page_open eq_refl) as [H _].
    apply (H msg_multiline_AB [seriesA; seriesB]);
      [reflexivity | reflexivity | discriminate].
  - destruct (onmessage_acknowledges_well_formed page_AB eq_refl) as [_ H].
    apply (H msg_new_line_C seriesC [seriesA; seriesB]); reflexivity.
Defined.

(** X11: a message whose [type] is not one of the three literals, or is
    not a string, or is missing, is ignored: the handler returns normally,
    the page is exactly as before, nothing is sent. *)
Theorem onmessage_ignores_unrecognized (m : Message) (p : Page) :
  (∀ t, get_prop m "type" = JString t →
        t ≠ "multiline data" ∧ t ≠ "new line data" ∧ t ≠ "clear plots") →
  onmessage m p = (Returned tt, p).
Proof.
  intros H. apply onmessage_unrecognized; intros Ht;
    destruct (H _ Ht) as (? & ? & ?); done.
Qed.

Lemma onmessage_ignores_unrecognized_witness :
  onmessage msg_unknown page_AB = (Returned tt, page_AB) ∧
  onmessage msg_untagged page_AB = (Returned tt, page_AB).
Proof.
  split.
  - apply (onmessage_ignores_unrecognized msg_unknown page_AB).
    intros t [= <-]. done.
  - apply (onmessage_ignores_unrecognized msg_untagged page_AB).
    intros t [=].
Defined.

(** X12: whatever the message, and whether or not it throws, [onmessage]
    leaves the plot id, the line counter, the job queue, the socket's
    state and its listeners alone, and sends either nothing or exactly one
    ready status. *)
Theorem onmessage_frame (m : Message) (p : Page) :
  let q := (onmessage m p).2 in
  props_plot_id q = props_plot_id p ∧ lineID q = lineID p ∧
  jobs q = jobs p ∧
  readyState (socket q) = readyState (socket p) ∧
  open_listeners (socket q) = open_listeners (socket p) ∧
  (sent (socket q) = sent (socket p) ∨
   sent (socket q) = sent (socket p) ++ [ready_status (props_plot_id p)]).
Proof.
  destruct (onmessage m p) as [r q] eqn:Hrun. simpl.
  apply onmessage_effect in Hrun as (? & ? & ? & ? & ? & ? & _). done.
Qed.

(** X13: replacing the collection and then appending a series gives the
    same page as replacing the collection by the extended list at once. *)
Theorem multiline_then_new_line (m1 m2 m12 : Message) (ds : list LineData)
    (s : LineData) (p : Page) :
  get_prop m1 "data" = lines ds → ds ≠ [] →
  get_prop m2 "data" = JLine s →
  get_prop m12 "data" = lines (ds ++ [s]) →
  call (plot_new_line_data m2) (call (plot_multiline_data m1) p) =
  call (plot_multiline_data m12) p.
Proof.
  intros H1 Hne H2 H12.
  destruct (plot_multiline_data_lines m1 ds p H1 Hne) as (dx & dy & _ & _ & Hr1).
  unfold call at 2. rewrite Hr1. simpl.
  destruct (plot_new_line_data_lines m2 s ds
              (mkPage (props_plot_id p) (lines ds) (socket p) (lineID p)
                      dx dy (jobs p)) eq_refl H2)
    as (dx2 & dy2 & Hx2 & Hy2 & Hr2).
  unfold call at 1. rewrite Hr2. simpl.
  destruct (plot_multiline_data_lines m12 (ds ++ [s]) p H12 ltac:(by destruct ds))
    as (dx3 & dy3 & Hx3 & Hy3 & Hr3).
  unfold call. rewrite Hr3. simpl. congruence.
Qed.

Lemma multiline_then_new_line_witness :
  call (plot_new_line_data msg_new_line_C)
    (call (plot_multiline_data msg_multiline_AB) page_open) =
  call (plot_multiline_data msg_multiline_ABC) page_open.
Proof.
  apply (multiline_then_new_line msg_multiline_AB msg_new_line_C
           msg_multiline_ABC [seriesA; seriesB] seriesC page_open);
    [reflexivity | discriminate | reflexivity | reflexivity].
Defined.

(** X14: a well-formed "multiline data" message forgets the store it finds:
    two pages that differ only in their collection and domains are equal
    after it.  In particular applying it twice is applying it once. *)
Theorem plot_multiline_data_forgets (m : Message) (ds : list LineData)
    (p q : Page) :
  get_prop m "data" = lines ds → ds ≠ [] →
  props_plot_id q = props_plot_id p → socket q = socket p →
  lineID q = lineID p → jobs q = jobs p →
  call (plot_multiline_data m) q = call (plot_multiline_data m) p ∧
  call (plot_multiline_data m) (call (plot_multiline_data m) p) =
    call (plot_multiline_data m) p.
Proof.
  intros Hdata Hne Hid Hsock Hline Hjobs.
  destruct (plot_multiline_data_lines m ds p Hdata Hne) as (dx & dy & Hx & Hy & Hp).
  destruct (plot_multiline_data_lines m ds q Hdata Hne) as (dx' & dy' & Hx' & Hy' & Hq).
  assert (dx' = dx) as -> by congruence.
  assert (dy' = dy) as -> by congruence.
  unfold call. rewrite Hq, Hp. simpl. split; [by rewrite Hid, Hsock, Hline, Hjobs|].
  destruct (plot_multiline_data_lines m ds
              (mkPage (props_plot_id p) (lines ds) (socket p) (lineID p)
                      dx dy (jobs p)) Hdata Hne)
    as (dx2 & dy2 & Hx2 & Hy2 & Hr).
  rewrite Hr. simpl. congruence.
Qed.

Lemma plot_multiline_data_forgets_witness :
  call (plot_multiline_data msg_multiline_AB) page_poisoned =
    call (plot_multiline_data msg_multiline_AB) page_open ∧
  call (plot_multiline_data msg_multiline_AB)
    (call (plot_multiline_data msg_multiline_AB) page_open) =
    call (plot_multiline_data msg_multiline_AB) page_open.
Proof.
  apply (plot_multiline_data_forgets msg_multiline_AB [seriesA; seriesB]
           page_open page_poisoned);
    [reflexivity | discriminate | reflexivity..].
Defined.

(* ===================================================================== *)
(** ** Further properties of runs *)
(* ===================================================================== *)

Lemma store_consistent_with_socket s p :
  store_consistent p → store_consistent (with_socket s p).
Proof. done. Qed.

(** A handler followed by the acknowledgement keeps what the handler
    establishes about the store. *)
Lemma then_ack_preserves (P : Page → Prop) (h : M unit) message p r p' :
  (∀ s q, P q → P (with_socket s q)) →
  (∀ r1 p1, h p = (r1, p1) → P p1) →
  (h;; socket_send message) p = (r, p') → P p'.
Proof.
  intros Hsock Hh. destruct (h p) as [[[]|e] p1] eqn:Hrun.
  - erewrite bind_returned by exact Hrun. intros Hsend.
    apply socket_send_frame in Hsend as [->| ->]; [|apply Hsock]; by eapply Hh.
  - erewrite bind_threw by exact Hrun. intros [= <- <-]. by eapply Hh.
Qed.

Lemma onmessage_store_consistent (m : Message) p r p' :
  well_typed m → store_consistent p →
  onmessage m p = (r, p') → store_consistent p'.
Proof.
  intros [Hmulti Hline] Hcons.
  assert (get_prop m "type" = JString "multiline data" ∨
          get_prop m "type" = JString "new line data" ∨
          get_prop m "type" = JString "clear plots" ∨
          (get_prop m "type" ≠ JString "multiline data" ∧
           get_prop m "type" ≠ JString "new line data" ∧
           get_prop m "type" ≠ JString "clear plots")) as Htag.
  { destruct (get_prop m "type") as [|t| | |]; try (by repeat right).
    destruct (decide (t = "multiline data")) as [->|]; [by left|].
    destruct (decide (t = "new line data")) as [->|]; [by right; left|].
    destruct (decide (t = "clear plots")) as [->|]; [by right; right; left|].
    repeat right. split_and!; congruence. }
  destruct Htag as [H|[H|[H|(H1 & H2 & H3)]]].
  - rewrite onmessage_multiline by done.
    apply then_ack_preserves; [apply store_consistent_with_socket|].
    intros r1 p1 Hrun. destruct (Hmulti H) as [ds Hdata].
    destruct ds as [|d ds].
    + rewrite plot_multiline_data_throws in Hrun by (by rewrite Hdata).
      by injection Hrun as <- <-.
    + destruct (plot_multiline_data_lines m (d :: ds) p Hdata ltac:(done))
        as (dx & dy & Hx & Hy & Hrun').
      rewrite Hrun' in Hrun. injection Hrun as <- <-.
      exists (d :: ds). done.
  - rewrite onmessage_new_line by done.
    apply then_ack_preserves; [apply store_consistent_with_socket|].
    intros r1 p1 Hrun. destruct (Hline H) as [s Hdata].
    destruct Hcons as (ds & Hst & _).
    destruct (plot_new_line_data_lines m s ds p Hst Hdata)
      as (dx & dy & Hx & Hy & Hrun').
    rewrite Hrun' in Hrun. injection Hrun as <- <-.
    exists (ds ++ [s]). done.
  - rewrite onmessage_clear by done.
    apply then_ack_preserves; [apply store_consistent_with_socket|].
    intros r1 p1 Hrun. rewrite clear_all_line_data_runs in Hrun.
    injection Hrun as <- <-. by exists [].
  - rewrite onmessage_unrecognized by done. by intros [= <- <-].
Qed.

Lemma step_store_consistent e p p' :
  jobs p = [] → well_typed_event e → store_consistent p →
  step e p = Some p' → store_consistent p'.
Proof.
  intros Hjobs Hty Hcons Hstep.
  destruct e as [|m| |]; simpl in Hstep.
  - case_decide; [|done]. injection Hstep as <-.
    by rewrite dispatch_open_connecting.
  - case_decide; [|done]. injection Hstep as <-.
    rewrite task_onmessage by done. unfold call.
    destruct (onmessage m p) as [r q] eqn:Hrun.
    by eapply onmessage_store_consistent.
  - case_decide; [done|]. by injection Hstep as <-.
  - injection Hstep as <-.
    destruct (decide (readyState (socket p) = OPEN)).
    + by rewrite task_handleAddLine_open.
    + by rewrite task_handleAddLine_not_open.
Qed.

Lemma run_store_consistent id events : ∀ n p p',
  line_inv id n p → Forall well_typed_event events → store_consistent p →
  run events p = Some p' → store_consistent p'.
Proof.
  induction events as [|e events IH]; intros n p p' Hline Hty Hcons Hrun;
    simpl in Hrun.
  - by injection Hrun as <-.
  - destruct (step e p) as [q|] eqn:Hstep; [|done].
    apply Forall_cons in Hty as [He Hty].
    apply (IH (n + clicks [e])%nat q p'); [| done | | done].
    + by eapply step_line_inv.
    + eapply step_store_consistent; [| done..]. by destruct Hline as (_ & _ & ? & _).
Qed.

(** X15: as long as every delivered message is well typed, what [render]
    hands to the plot is coherent: the data is an array of line objects
    and, unless it is empty, the x and y domains passed along are exactly
    what the domain computation returns on that data (no stale domain is
    ever drawn), with the curve type "line only". *)
Theorem render_domains_match_data (id : string) (events : list Event)
    (p : Page) :
  run events (mounted id) = Some p →
  Forall well_typed_event events →
  ∃ ds,
    PlotView.data (PlotView.render p) = lines ds ∧
    (ds ≠ [] →
     calculateMultiXDomain (lines ds) = Normal (PlotView.xDomain (PlotView.render p)) ∧
     calculateMultiYDomain (lines ds) = Normal (PlotView.yDomain (PlotView.render p))) ∧
    PlotView.curveType (PlotView.render p) = PlotView.LineOnly.
Proof.
  intros Hrun Hty.
  destruct (run_store_consistent id events 0 (mounted id) p) as (ds & Hds & Hdom);
    [apply mounted_line_inv | done | by exists [] | done | ].
  exists ds. done.
Qed.

Lemma render_domains_match_data_witness :
  ∃ ds,
    PlotView.data (PlotView.render page_ABC) = lines ds ∧
    (ds ≠ [] →
     calculateMultiXDomain (lines ds)
       = Normal (PlotView.xDomain (PlotView.render page_ABC)) ∧
     calculateMultiYDomain (lines ds)
       = Normal (PlotView.yDomain (PlotView.render page_ABC))) ∧
    PlotView.curveType (PlotView.render page_ABC) = PlotView.LineOnly.
Proof.
  apply (render_domains_match_data "plot_0"
           [SocketOpen; SocketMessage msg_multiline_AB;
            SocketMessage msg_new_line_C] page_ABC).
  - reflexivity.
  - apply Forall_cons_2; [exact I|].
    apply Forall_cons_2.
    { split; [intros _; by exists [seriesA; seriesB] | intros [=]]. }
    apply Forall_cons_2; [|apply Forall_nil_2].
    split; [intros [=] | intros _; by exists seriesC].
Defined.

(* --------------------------------------------------------------------- *)
(** *** Ready statuses along a run *)

Lemma status_messages_app ms1 ms2 :
  status_messages (ms1 ++ ms2) = status_messages ms1 ++ status_messages ms2.
Proof. apply filter_app. Qed.

Lemma status_messages_requests id (ks : list Continuation) :
  status_messages (request_of id <$> ks) = [].
Proof.
  induction ks as [|[n] ks IH]; [done|].
  rewrite fmap_cons. unfold status_messages in *.
  by rewrite filter_cons_False.
Qed.

Lemma mounted_ack_inv id : ack_inv 0 (mounted id).
Proof. unfold ack_inv. simpl. split_and!; [done | done | lia]. Qed.

Lemma step_ack_inv n e p p' :
  ack_inv n p → step e p = Some p' → ack_inv (n + deliveries [e]) p'.
Proof.
  intros (Hjobs & Hconn & Hlen) Hstep.
  destruct e as [|m| |]; simpl in Hstep; simpl deliveries;
    rewrite ?Nat.add_0_r.
  - case_decide as Hrs; [|done]. injection Hstep as <-.
    rewrite dispatch_open_connecting by done.
    unfold ack_inv. simpl. split_and!; [done | intros [=] | ].
    rewrite status_messages_app, (Hconn Hrs), app_nil_l.
    unfold status_messages at 1. rewrite filter_cons_True by done.
    fold status_messages. rewrite status_messages_requests. simpl. lia.
  - case_decide as Hrs; [|done]. injection Hstep as <-.
    rewrite task_onmessage by done. unfold call.
    destruct (onmessage m p) as [r q] eqn:Hrun. simpl.
    apply onmessage_effect in Hrun
      as (_ & _ & Hjobs' & Hrs' & _ & Hsent & _).
    unfold ack_inv. rewrite Hjobs', Hrs'. split_and!; [done | | ].
    + intros Hc. rewrite Hrs in Hc. done.
    + destruct Hsent as [->| ->]; [lia|].
      rewrite status_messages_app, length_app. simpl. lia.
  - case_decide as Hrs; [done|]. injection Hstep as <-.
    unfold ack_inv, dispatch_close. simpl. split_and!; done.
  - injection Hstep as <-.
    destruct (decide (readyState (socket p) = OPEN)) as [Hrs|Hrs].
    + rewrite task_handleAddLine_open by done.
      unfold ack_inv.
      cbn [with_lineID having_sent with_socket props_plot_id lineID jobs
           socket readyState sent open_listeners].
      split_and!; [done | | ].
      * intros Hc. rewrite Hrs in Hc. done.
      * rewrite status_messages_app.
        change [new_line_request (props_plot_id p) (lineID p + 1)]
          with (request_of (props_plot_id p) <$> [AfterOpenSocket (lineID p + 1)]).
        rewrite status_messages_requests, app_nil_r. lia.
    + rewrite task_handleAddLine_not_open by done.
      unfold ack_inv. simpl. split_and!; done.
Qed.

Lemma run_ack_inv events : ∀ n p p',
  ack_inv n p → run events p = Some p' →
  ack_inv (n + deliveries events) p'.
Proof.
  induction events as [|e events IH]; intros n p p' Hinv Hrun; simpl in Hrun.
  - injection Hrun as <-. simpl. by rewrite Nat.add_0_r.
  - destruct (step e p) as [q|] eqn:Hstep; [|done].
    pose proof (step_ack_inv _ _ _ _ Hinv Hstep) as Hq.
    pose proof (IH _ _ _ Hq Hrun) as Hp'.
    replace (n + deliveries (e :: events))%nat
      with (n + deliveries [e] + deliveries events)%nat; [done|].
    destruct e; simpl; lia.
Qed.

(** X16: along any run from the mounted page the component never sends
    more ready statuses than one for the opening of the socket plus one per
    delivered message, and it sends none while the socket is still
    connecting. *)
Theorem ready_statuses_bounded (id : string) (events : list Event) (p : Page) :
  run events (mounted id) = Some p →
  (length (status_messages (sent (socket p))) ≤ 1 + deliveries events)%nat ∧
  (readyState (socket p) = CONNECTING →
   status_messages (sent (socket p)) = []).
Proof.
  intros Hrun.
  destruct (run_ack_inv events 0 _ _ (mounted_ack_inv id) Hrun)
    as (_ & Hconn & Hlen).
  done.
Qed.

Lemma ready_statuses_bounded_witness :
  (length (status_messages (sent (socket page_ABC))) ≤ 1 + 2)%nat ∧
  (readyState (socket page_ABC) = CONNECTING →
   status_messages (sent (socket page_ABC)) = []).
Proof.
  apply (ready_statuses_bounded "plot_0"
           [SocketOpen; SocketMessage msg_multiline_AB;
            SocketMessage msg_new_line_C] page_ABC).
  reflexivity.
Defined.

(* --------------------------------------------------------------------- *)
(** *** What is sent first, and what is never sent *)

Lemma mounted_sent_inv id : sent_inv id (mounted id).
Proof. unfold sent_inv. simpl. split_and!; auto. Qed.

Lemma head_app_ne {A} (l1 l2 : list A) : l1 ≠ [] → head (l1 ++ l2) = head l1.
Proof. by destruct l1. Qed.

Lemma step_sent_inv id e p p' :
  sent_inv id p → step e p = Some p' → sent_inv id p'.
Proof.
  intros (Hid & Hjobs & Hconn & Hopen & Hhead) Hstep.
  destruct e as [|m| |]; simpl in Hstep.
  - case_decide as Hrs; [|done]. injection Hstep as <-.
    rewrite dispatch_open_connecting by done.
    unfold sent_inv. simpl. rewrite (Hconn Hrs), Hid. simpl.
    split_and!; [done | done | intros [=] | done | by right].
  - case_decide as Hrs; [|done]. injection Hstep as <-.
    rewrite task_onmessage by done. unfold call.
    destruct (onmessage m p) as [r q] eqn:Hrun. simpl.
    apply onmessage_effect in Hrun
      as (Hid' & _ & Hjobs' & Hrs' & _ & Hsent & _).
    specialize (Hopen Hrs).
    unfold sent_inv. rewrite Hid', Hjobs', Hrs'.
    split_and!; [done | done | | | ].
    + intros Hc. rewrite Hrs in Hc. done.
    + intros _. destruct Hsent as [->| ->]; [done|]. by destruct (sent (socket p)).
    + right. destruct Hhead as [?|Hhead]; [done|].
      destruct Hsent as [->| ->]; [done|]. by rewrite head_app_ne.
  - case_decide as Hrs; [done|]. injection Hstep as <-.
    unfold sent_inv, dispatch_close. simpl. split_and!; done.
  - injection Hstep as <-.
    destruct (decide (readyState (socket p) = OPEN)) as [Hrs|Hrs].
    + rewrite task_handleAddLine_open by done.
      specialize (Hopen Hrs).
      unfold sent_inv.
      cbn [with_lineID having_sent with_socket props_plot_id lineID jobs
           socket readyState sent open_listeners].
      split_and!; [done | done | | | ].
      * intros Hc. rewrite Hrs in Hc. done.
      * intros _. by destruct (sent (socket p)).
      * right. destruct Hhead as [?|Hhead]; [done|]. by rewrite head_app_ne.
    + rewrite task_handleAddLine_not_open by done.
      unfold sent_inv. simpl. split_and!; done.
Qed.

Lemma run_sent_inv id events : ∀ p p',
  sent_inv id p → run events p = Some p' → sent_inv id p'.
Proof.
  induction events as [|e events IH]; intros p p' Hinv Hrun; simpl in Hrun.
  - by injection Hrun as <-.
  - destruct (step e p) as [q|] eqn:Hstep; [|done].
    eapply IH; [|done]. by eapply step_sent_inv.
Qed.

(** X17: along any run from the mounted page, nothing at all is sent while
    the socket is connecting, and the first message the component ever
    sends is the ready status of [onopen]: add-line requests made before
    the socket opened go out after it. *)
Theorem first_sent_is_ready (id : string) (events : list Event) (p : Page) :
  run events (mounted id) = Some p →
  (readyState (socket p) = CONNECTING → sent (socket p) = []) ∧
  (readyState (socket p) = OPEN →
   head (sent (socket p)) = Some (ready_status id)) ∧
  (sent (socket p) = [] ∨ head (sent (socket p)) = Some (ready_status id)).
Proof.
  intros Hrun.
  destruct (run_sent_inv id events _ _ (mounted_sent_inv id) Hrun)
    as (_ & _ & Hconn & Hopen & Hhead).
  split_and!; [done | | done].
  intros Hrs. destruct Hhead as [Hnil|?]; [|done]. by destruct (Hopen Hrs).
Qed.

Lemma first_sent_is_ready_witness :
  (readyState (socket page_opened_late) = CONNECTING →
   sent (socket page_opened_late) = []) ∧
  (readyState (socket page_opened_late) = OPEN →
   head (sent (socket page_opened_late)) = Some (ready_status "plot_0")) ∧
  (sent (socket page_opened_late) = [] ∨
   head (sent (socket page_opened_late)) = Some (ready_status "plot_0")).
Proof.
  apply (first_sent_is_ready "plot_0"
           [AddLineClick; AddLineClick; SocketOpen] page_opened_late).
  reflexivity.
Defined.

(** X18: along any run from the mounted page, no two add-line requests
    that were sent carry the same [line_id]. *)
Theorem add_line_requests_distinct (id : string) (events : list Event)
    (p : Page) :
  run events (mounted id) = Some p →
  NoDup (add_line_requests (sent (socket p))) ∧
  NoDup (params <$> add_line_requests (sent (socket p))).
Proof.
  intros Hrun.
  pose proof (run_line_inv id events 0 _ _ (mounted_line_inv id) Hrun)
    as (_ & _ & _ & _ & _ & (k & _ & ->)).
  assert (Inj eq eq (λ n : Z, NewLineParams (String_ n))) as Hinj.
  { intros a b [= H]. by apply pretty_Z_inj in H. }
  assert (Inj eq eq (new_line_request id)) as Hinj'.
  { intros a b [= H]. by apply pretty_Z_inj in H. }
  split.
  - apply (NoDup_fmap_2 (new_line_request id)), NoDup_seqZ.
  - rewrite <- list_fmap_compose.
    apply (NoDup_fmap_2 (λ n : Z, NewLineParams (String_ n))), NoDup_seqZ.
Qed.

Lemma add_line_requests_distinct_witness :
  NoDup (add_line_requests (sent (socket page_opened_late))) ∧
  NoDup (params <$> add_line_requests (sent (socket page_opened_late))).
Proof.
  apply (add_line_requests_distinct "plot_0"
           [AddLineClick; AddLineClick; SocketOpen] page_opened_late).
  reflexivity.
Defined.

(** X19: on a socket that has closed no event but the add-line action can
    occur, and the component sends nothing any more: every add-line action
    bumps the counter and registers one more listener that never fires. *)
Theorem closed_socket_sends_nothing (events : list Event) : ∀ (p p' : Page),
  readyState (socket p) = CLOSED → jobs p = [] →
  run events p = Some p' →
  sent (socket p') = sent (socket p) ∧
  readyState (socket p') = CLOSED ∧
  deliveries events = 0%nat ∧
  lineID p' = lineID p + Z.of_nat (clicks events) ∧
  length (open_listeners (socket p')) =
    (length (open_listeners (socket p)) + clicks events)%nat ∧
  state_multilineData p' = state_multilineData p.
Proof.
  induction events as [|e events IH]; intros p p' Hrs Hjobs Hrun;
    simpl in Hrun.
  - injection Hrun as <-. simpl. split_and!; [done.. | lia | lia | done].
  - destruct e as [|m| |]; simpl in Hrun.
    + case_decide as Hc; [|done]. rewrite Hrs in Hc. done.
    + case_decide as Hc; [|done]. rewrite Hrs in Hc. done.
    + case_decide; done.
    + rewrite task_handleAddLine_not_open in Hrun
        by (try rewrite Hrs; done).
      apply IH in Hrun as (Hsent & Hrs' & Hdel & Hline & Hlen & Hst);
        [|done..].
      simpl in *. rewrite length_app in Hlen. simpl in Hlen.
      split_and!; [done.. | lia | lia | done].
Qed.

Lemma closed_socket_sends_nothing_witness :
  ∃ p',
    run [AddLineClick; AddLineClick] page_closed = Some p' ∧
    sent (socket p') = [] ∧ readyState (socket p') = CLOSED ∧
    lineID p' = 5 ∧ length (open_listeners (socket p')) = 2%nat.
Proof.
  eexists. split; [reflexivity|].
  destruct (closed_socket_sends_nothing [AddLineClick; AddLineClick]
              page_closed _ eq_refl eq_refl eq_refl)
    as (H1 & H2 & _ & H4 & H5 & _).
  split_and!; [exact H1 | exact H2 | exact H4 | exact H5].
Defined.

(* --------------------------------------------------------------------- *)
(** *** The add-line action and the store *)

Lemma call_resume_store k p :
  let q := call (resume k) p in
  props_plot_id q = props_plot_id p ∧ lineID q = lineID p ∧
  state_multilineData q = state_multilineData p ∧
  multilineXDomain q = multilineXDomain p ∧
  multilineYDomain q = multilineYDomain p ∧
  readyState (socket q) = readyState (socket p).
Proof.
  destruct k as [n]. unfold call, resume.
  erewrite bind_returned by reflexivity.
  destruct (socket_send _ p) as [r p'] eqn:Hsend. simpl.
  apply socket_send_frame in Hsend as [->| ->]; done.
Qed.

Lemma foldl_resume_store ks : ∀ p,
  let q := foldl (λ q k, call (resume k) q) p ks in
  props_plot_id q = props_plot_id p ∧ lineID q = lineID p ∧
  state_multilineData q = state_multilineData p ∧
  multilineXDomain q = multilineXDomain p ∧
  multilineYDomain q = multilineYDomain p ∧
  readyState (socket q) = readyState (socket p).
Proof.
  induction ks as [|k ks IH]; intros p; simpl; [done|].
  destruct (IH (call (resume k) p)) as (-> & -> & -> & -> & -> & ->).
  apply call_resume_store.
Qed.

(** X20: the add-line action can always be taken, increments the line
    counter by exactly one, and never changes what is plotted: the
    collection and both domains are as before, whatever the state of the
    socket and whatever jobs were queued. *)
Theorem handleAddLine_keeps_store (p : Page) :
  ∃ q, step AddLineClick p = Some q ∧
       lineID q = lineID p + 1 ∧
       props_plot_id q = props_plot_id p ∧
       state_multilineData q = state_multilineData p ∧
       multilineXDomain q = multilineXDomain p ∧
       multilineYDomain q = multilineYDomain p ∧
       readyState (socket q) = readyState (socket p).
Proof.
  eexists. split; [reflexivity|].
  unfold task, run_jobs.
  set (p1 := call handleAddLine p).
  destruct (foldl_resume_store (jobs p1) (with_jobs [] p1))
    as (-> & -> & -> & -> & -> & ->).
  subst p1. unfold call, handleAddLine, sendNewLineRequest, waitForOpenSocket, await.
  run_m. case_decide; done.
Qed.

(* ===================================================================== *)
(** ** Further properties of the selection component *)
(* ===================================================================== *)

Module SelectionMore.
Import Selection.

Lemma updateCounters_other_kind t t' c :
  t' ≠ t → counter (updateCounters t c) t' = counter c t'.
Proof. by destruct t, t'. Qed.

Lemma updateCounters_same_kind t c :
  counter (updateCounters t c) t = counter c t + 1.
Proof. by destruct t. Qed.

(** X21: after any sequence of calls of [updateCounters], each counter has
    grown by exactly the number of calls made for its kind: no call is
    lost, no other kind is touched, and no counter ever decreases. *)
Theorem updateCounters_counts (kinds : list SelectionType) : ∀ (c : Counters)
    (t : SelectionType),
  counter (foldl (λ c' t', updateCounters t' c') c kinds) t =
    counter c t + commits_of t kinds ∧
  counter c t ≤ counter (foldl (λ c' t', updateCounters t' c') c kinds) t.
Proof.
  induction kinds as [|k kinds IH]; intros c t.
  - unfold commits_of. simpl. lia.
  - simpl. destruct (IH (updateCounters k c) t) as [-> _].
    unfold commits_of. destruct (decide (k = t)) as [->|Hne].
    + rewrite filter_cons_True by done.
      rewrite updateCounters_same_kind. simpl length. lia.
    + rewrite filter_cons_False by done.
      rewrite updateCounters_other_kind by done. lia.
Qed.

End SelectionMore.
